(** * analyzer.mjs: sentiment, intent ranking and feedback bucketing

    A shallow embedding of [src/analyzer.mjs].  The remote inference service
    is an explicit environment; the asynchronous functions run in a small
    monad that threads the log of issued requests and propagates exceptions;
    the decoded JSON responses are dynamically shaped values, because the
    source inspects their shape at run time ([Array.isArray], [|| []]).
    The interactive loop and the start-up check of the API key are not
    modelled. *)

From Stdlib Require Import List Ascii String Bool PeanoNat QArith Lia.
From Stdlib Require Import Permutation Sorted DecimalString DecimalNat.
Import ListNotations.

Set Warnings "-register-all".

Local Close Scope Q_scope.
Local Open Scope nat_scope.
Local Open Scope string_scope.
Local Open Scope list_scope.

(** ** JavaScript values used by the program *)

Module Js.

(** The numbers of the responses are scores, finite doubles.  Every finite
    double is a rational, and [>], [>=] and the sign of the difference of two
    finite doubles are those of the rationals, so a number is a [Q].  [None]
    stands for what is not a number in arithmetic: [undefined] (an absent
    property, an index out of range) and the [NaN] it becomes under [-], [>]
    and [>=]. *)
Definition number := option Q.

Definition Qgtb (x y : Q) : bool := negb (Qle_bool x y).

(** [a > b] *)
Definition gt (a b : number) : bool :=
  match a, b with
  | Some x, Some y => Qgtb x y
  | _, _ => false
  end.

(** [a >= b] *)
Definition ge (a b : number) : bool :=
  match a, b with
  | Some x, Some y => Qle_bool y x
  | _, _ => false
  end.

(** [a - b] *)
Definition sub (a b : number) : number :=
  match a, b with
  | Some x, Some y => Some (x - y)%Q
  | _, _ => None
  end.

(** [v === s] for a value that is a string or [undefined]. *)
Definition strict_eq (v : option string) (s : string) : bool :=
  match v with
  | Some t => String.eqb t s
  | None => false
  end.

(** [names.includes(s)] *)
Definition includes (names : list (option string)) (s : string) : bool :=
  existsb (fun n => strict_eq n s) names.

(** [l.slice(0, n)] *)
Definition slice0 {A : Type} (n : nat) (l : list A) : list A := firstn n l.

(** [l.map((x, i) => f x i)], counting indices from [i]. *)
Fixpoint map_index {A B : Type} (f : A -> nat -> B) (i : nat) (l : list A)
  : list B :=
  match l with
  | [] => []
  | x :: l' => f x i :: map_index f (S i) l'
  end.

(** [Array.prototype.sort(comparefn)].  ECMAScript reads the comparator's
    result as a number, takes [NaN] for [+0], puts [a] before [b] when the
    result is negative and [b] before [a] when it is positive, and (since
    ES2019) keeps the order of elements that compare equal.  For a
    consistent comparator this fixes the result, and the stable insertion
    sort below computes it.  For an inconsistent one (here: a score that is
    [undefined]) the standard leaves the order to the engine, and the
    function below is one allowed behaviour. *)
Section Sort.
Context {A : Type} (comparefn : A -> A -> number).

Definition sort_compare (a b : A) : Q :=
  match comparefn a b with
  | Some v => v
  | None => 0%Q
  end.

(** [a] preceded every element of [sorted] in the array. *)
Fixpoint insert (a : A) (sorted : list A) : list A :=
  match sorted with
  | [] => [a]
  | b :: rest =>
      if Qgtb (sort_compare a b) 0 then b :: insert a rest
      else a :: b :: rest
  end.

Definition sort (l : list A) : list A := fold_right insert [] l.
End Sort.

(** Exceptions.  [Error] is [new Error(message)]; [TypeError] is raised by
    the engine when a property of [undefined] or [null] is read or a
    non-function is called, and carries the name of the property;
    [SyntaxError] is the rejection of [res.json()] on a body that is not
    JSON. *)
Inductive Exn : Type :=
| Error (message : string)
| TypeError (property : string)
| SyntaxError
| NetworkError (cause : string).

Definition Result (A : Type) : Type := (Exn + A)%type.
Definition Ok {A : Type} (a : A) : Result A := inr a.
Definition Throw {A : Type} (e : Exn) : Result A := inl e.

Definition rbind {A B : Type} (r : Result A) (k : A -> Result B) : Result B :=
  match r with
  | inl e => inl e
  | inr a => k a
  end.

(** The objects of a decoded response, as the program reads them: only the
    properties [label], [score], [labels] and [scores] are ever read, each
    absent ([None]) or of the type the service documents.  A JSON number,
    string or boolean in the place of an object behaves in every operation
    of this program as an object with none of the four properties.
    Outside this type, and outside every statement below, are a [score] that
    is present but not a number ([null], a boolean, a string: line 62
    compares those after conversion to a number) and a [labels] or [scores]
    that is present but not an array (a truthy one passes [|| []] and
    [labels.map] then throws). *)
Record JObject : Type := mkObject {
  obj_label : option string;
  obj_score : number;
  obj_labels : option (list string);
  obj_scores : option (list Q)
}.

Inductive Value : Type :=
| VUndefined
| VNull
| VArray (items : list Value)
| VObject (o : JObject).

(** [Array.isArray(v)] *)
Definition isArray (v : Value) : bool :=
  match v with
  | VArray _ => true
  | _ => false
  end.

(** [v[0]], for [v] a value whose own property [0] can only be an array
    element. *)
Definition index0 (v : Value) : Result Value :=
  match v with
  | VUndefined | VNull => Throw (TypeError "0")
  | VArray items => Ok (hd VUndefined items)
  | VObject _ => Ok VUndefined
  end.

(** [v.score] *)
Definition get_score (v : Value) : Result number :=
  match v with
  | VUndefined | VNull => Throw (TypeError "score")
  | VArray _ => Ok None
  | VObject o => Ok (obj_score o)
  end.

(** [v.label] *)
Definition get_label (v : Value) : Result (option string) :=
  match v with
  | VUndefined | VNull => Throw (TypeError "label")
  | VArray _ => Ok None
  | VObject o => Ok (obj_label o)
  end.

(** [v.labels || []] *)
Definition get_labels_or_empty (v : Value) : Result (list string) :=
  match v with
  | VUndefined | VNull => Throw (TypeError "labels")
  | VArray _ => Ok []
  | VObject o => Ok (match obj_labels o with Some l => l | None => [] end)
  end.

(** [v.scores || []] *)
Definition get_scores_or_empty (v : Value) : Result (list Q) :=
  match v with
  | VUndefined | VNull => Throw (TypeError "scores")
  | VArray _ => Ok []
  | VObject o => Ok (match obj_scores o with Some l => l | None => [] end)
  end.

(** [items.reduce(f, init)] with a callback that may throw. *)
Fixpoint reduce {A B : Type} (f : B -> A -> Result B) (items : list A)
  (init : B) : Result B :=
  match items with
  | [] => Ok init
  | cur :: rest => rbind (f init cur) (reduce f rest)
  end.

(** [`${n}`] for a non-negative integer. *)
Definition show_nat (n : nat) : string :=
  NilEmpty.string_of_uint (Nat.to_uint n).

End Js.

Import Js.

Declare Scope result_scope.
Delimit Scope result_scope with result.
Notation "x <- c ;; k" := (rbind c (fun x => k))
  (at level 61, c at next level, right associativity) : result_scope.

(** ** The program *)

(** [{ label, score }]: the result of [getSentiment] and the elements of the
    array [getIntent] returns. *)
Record Entry : Type := mkEntry {
  label : option string;
  score : number
}.

Record Parameters : Type := mkParameters {
  candidate_labels : list string;
  multi_label : bool
}.

(** The payload of a call; [JSON.stringify] is injective on these and is left
    out. *)
Record Payload : Type := mkPayload {
  inputs : string;
  parameters : option Parameters
}.

Record Request : Type := mkRequest {
  url : string;
  method : string;
  headers : list (string * string);
  body : Payload
}.

(** A response as [callModel] reads it: [res.status], [res.text()] and
    [res.json()], the last being [None] when the body is not JSON.  A body
    that cannot be read at all is a failure of the transport, a [Rejects]
    below. *)
Record Response : Type := mkResponse {
  status : nat;
  text : string;
  json : option Value
}.

(** [res.ok] *)
Definition ok (res : Response) : bool :=
  Nat.leb 200 (status res) && Nat.leb (status res) 299.

(** What awaiting [fetch] gives: a rejection or a response. *)
Inductive Outcome : Type :=
| Rejects (e : Exn)
| Responds (res : Response).

(** The network: what [fetch] answers to a request, which may depend on the
    requests issued before it. *)
Definition Service : Type := list Request -> Request -> Outcome.

Record AnalysisResult : Type := mkResult {
  input : string;
  sentiment : Entry;
  intents_ranked : list Entry;
  feedback_bucket : string
}.

Definition HF_URL : string := "https://router.huggingface.co".

Definition SENTIMENT_MODEL : string :=
  "cardiffnlp/twitter-roberta-base-sentiment-latest".

Definition INTENT_MODEL : string := "facebook/bart-large-mnli".

Definition INTENT_LABELS : list string :=
  [ "greeting"; "product_query"; "order_status"; "refund"; "cancel_order";
    "password_reset"; "account_login"; "bug_report"; "feature_request";
    "complaint"; "praise"; "question" ].

(** The literal [0.35] denotes the double nearest to 35/100, which is
    6305039478318694 / 2^54. *)
Definition threshold : Q := 6305039478318694 # 18014398509481984.

(** *** Asynchronous code: request log and exceptions *)

(** An [async] computation: it starts from the requests issued so far and
    ends with a value or an exception and the requests issued by then. *)
Definition Async (A : Type) : Type := list Request -> Result A * list Request.

Definition ret {A : Type} (a : A) : Async A := fun log => (Ok a, log).

Definition throw {A : Type} (e : Exn) : Async A := fun log => (Throw e, log).

Definition bind {A B : Type} (m : Async A) (k : A -> Async B) : Async B :=
  fun log =>
    match m log with
    | (inl e, log') => (inl e, log')
    | (inr a, log') => k a log'
    end.

Definition lift {A : Type} (r : Result A) : Async A := fun log => (r, log).

Declare Scope async_scope.
Delimit Scope async_scope with async.
Notation "x <- 'await' c ;; k" := (bind c (fun x => k))
  (at level 61, c at next level, right associativity) : async_scope.

Section Analyzer.

(** [process.env.HUGGINGFACE_API_KEY]; the module exits at load time when it
    is missing. *)
Variable HF_API_KEY : string.

(** The service the program talks to. *)
Variable remote : Service.

Definition fetch (req : Request) : Async Response :=
  fun log =>
    (match remote log req with
     | Rejects e => Throw e
     | Responds res => Ok res
     end, log ++ [req]).

Definition model_request (model : string) (payload : Payload) : Request :=
  {| url := (HF_URL ++ "/hf-inference/models/" ++ model)%string;
     method := "POST";
     headers := [ ("Authorization", ("Bearer " ++ HF_API_KEY)%string);
                  ("Content-Type", "application/json") ];
     body := payload |}.

Definition callModel (model : string) (payload : Payload) : Async Value :=
  (res <- await fetch (model_request model payload) ;;
   if negb (ok res) then
     throw (Error ("HTTP " ++ show_nat (status res) ++ " → " ++ text res)%string)
   else
     match json res with
     | Some v => ret v
     | None => throw SyntaxError
     end)%async.

(** The callback of the reduction: [cur.score > best.score ? cur : best]. *)
Definition better (best cur : Value) : Result Value :=
  (cs <- get_score cur ;;
   bs <- get_score best ;;
   Ok (if gt cs bs then cur else best))%result.

(** [getSentiment] from the decoded response on. *)
Definition getSentiment_of (data : Value) : Result Entry :=
  (arr <- (if isArray data
           then (d0 <- index0 data ;;
                 if isArray d0 then Ok d0 else Ok data)
           else Ok data) ;;
   top <- match arr with
          | VUndefined | VNull => Throw (TypeError "reduce")
          | VObject _ => Throw (TypeError "reduce")
          | VArray items => (a0 <- index0 arr ;; reduce better items a0)
          end ;;
   l <- get_label top ;;
   s <- get_score top ;;
   Ok {| label := l; score := s |})%result.

Definition getSentiment (text : string) : Async Entry :=
  (data <- await callModel SENTIMENT_MODEL
                   {| inputs := text; parameters := None |} ;;
   lift (getSentiment_of data))%async.

(** The comparator of the ranking: [(a, b) => b.score - a.score]. *)
Definition by_score_desc (a b : Entry) : number := sub (score b) (score a).

(** [getIntent] from the decoded response on. *)
Definition getIntent_of (data : Value) : Result (list Entry) :=
  (labels <- get_labels_or_empty data ;;
   scores <- get_scores_or_empty data ;;
   let ranked :=
     sort by_score_desc
       (map_index
          (fun l i => {| label := Some l; score := nth_error scores i |})
          0 labels) in
   Ok ranked)%result.

Definition getIntent (text : string) : Async (list Entry) :=
  (data <- await callModel INTENT_MODEL
                   {| inputs := text;
                      parameters :=
                        Some {| candidate_labels := INTENT_LABELS;
                                multi_label := true |} |} ;;
   lift (getIntent_of data))%async.

Definition getFeedbackBucket (sentiment : option string)
  (intents : list Entry) : string :=
  let top :=
    slice0 3 (filter (fun i => ge (score i) (Some threshold)) intents) in
  let names := map (fun t => label t) top in
  if includes names "complaint" || strict_eq sentiment "negative"
  then "complaint"
  else if includes names "bug_report" then "bug_report"
  else if includes names "refund" || includes names "cancel_order"
  then "refund/cancellation"
  else if includes names "feature_request" then "suggestion"
  else if includes names "praise" || strict_eq sentiment "positive"
  then "praise"
  else if includes names "question" then "question"
  else "other".

Definition analyze (text : string) : Async AnalysisResult :=
  (sentiment <- await getSentiment text ;;
   intents <- await getIntent text ;;
   let bucket := getFeedbackBucket (label sentiment) intents in
   ret {| input := text;
          sentiment := sentiment;
          intents_ranked := slice0 5 intents;
          feedback_bucket := bucket |})%async.

End Analyzer.

(** ** Vocabulary of the statements *)

(** *** Requests and answers *)

Definition sentiment_payload (text : string) : Payload :=
  {| inputs := text; parameters := None |}.

Definition intent_payload (text : string) : Payload :=
  {| inputs := text;
     parameters := Some {| candidate_labels := INTENT_LABELS;
                           multi_label := true |} |}.

(** The requests [getSentiment] and [getIntent] issue for [text]. *)
Definition sentiment_request (key text : string) : Request :=
  model_request key SENTIMENT_MODEL (sentiment_payload text).

Definition intent_request (key text : string) : Request :=
  model_request key INTENT_MODEL (intent_payload text).

(** The service answers [req], issued after [log], with a 2xx response whose
    body decodes to [data]. *)
Definition answers (remote : Service) (log : list Request) (req : Request)
  (data : Value) : Prop :=
  exists res, remote log req = Responds res /\ ok res = true /\
              json res = Some data.

(** The message of the error [callModel] throws for a response that is not
    2xx. *)
Definition http_message (res : Response) : string :=
  ("HTTP " ++ show_nat (status res) ++ " → " ++ text res)%string.

(** *** Order on scores *)

Definition num_lt (a b : number) : Prop :=
  match a, b with
  | Some x, Some y => (x < y)%Q
  | _, _ => False
  end.

Definition num_le (a b : number) : Prop :=
  match a, b with
  | Some x, Some y => (x <= y)%Q
  | _, _ => False
  end.

(** *** Bucketing *)

(** [i.score >= 0.35] *)
Definition qualifies (i : Entry) : bool := ge (score i) (Some threshold).

(** [intents.filter(i => i.score >= 0.35).slice(0, 3)] *)
Definition active (intents : list Entry) : list Entry :=
  slice0 3 (filter qualifies intents).

(** The strings [getFeedbackBucket] can return. *)
Definition buckets : list string :=
  [ "complaint"; "bug_report"; "refund/cancellation"; "suggestion"; "praise";
    "question"; "other" ].

(** *** Sentiment *)

(** The [{ label, score }] built from an entry of the response. *)
Definition entry_of (o : JObject) : Entry :=
  {| label := obj_label o; score := obj_score o |}.

(** The reduction's callback on objects. *)
Definition pick (best cur : JObject) : JObject :=
  if gt (obj_score cur) (obj_score best) then cur else best.

(** The response is the array of the objects [objs], flat or wrapped in an
    outer array (whose further elements are not read). *)
Definition carries (data : Value) (objs : list JObject) : Prop :=
  data = VArray (map VObject objs) \/
  exists rest, data = VArray (VArray (map VObject objs) :: rest).

(** [top] is the first of the entries of [objs] with the greatest score:
    everything before it scores strictly less, nothing after it scores
    more. *)
Definition first_max (objs : list JObject) (top : JObject) : Prop :=
  exists pre post,
    objs = pre ++ top :: post /\
    Forall (fun o => num_lt (obj_score o) (obj_score top)) pre /\
    Forall (fun o => num_le (obj_score o) (obj_score top)) post.

(** *** Intents *)

(** What [data.labels || []] and [data.scores || []] give on an object. *)
Definition labels_of (o : JObject) : list string :=
  match obj_labels o with Some l => l | None => [] end.

Definition scores_of (o : JObject) : list Q :=
  match obj_scores o with Some l => l | None => [] end.

(** The entries [getIntent] builds before sorting: one per label, with the
    score at the label's index. *)
Definition pair_up (labels : list string) (scores : list Q) : list Entry :=
  map_index (fun l i => {| label := Some l; score := nth_error scores i |})
    0 labels.

(** A label with its score, and a label with no score at its index. *)
Definition intent (l : string) (s : Q) : Entry :=
  {| label := Some l; score := Some s |}.

Definition unscored (l : string) : Entry := {| label := Some l; score := None |}.

(** The index-wise pairing cut at the shorter sequence. *)
Definition paired (labels : list string) (scores : list Q) : list Entry :=
  map (fun p => intent (fst p) (snd p)) (combine labels scores).

(** Descending order of scores. *)
Definition desc (a b : Entry) : Prop := num_le (score b) (score a).

(** The entry's score is the number [q]. *)
Definition same_score (q : Q) (e : Entry) : bool :=
  match score e with
  | Some x => Qeq_bool x q
  | None => false
  end.

(** *** A mocked service for the examples *)

(** It answers the sentiment call (the one without [parameters]) with [sent]
    and the intent call with [ints], whatever was requested before. *)
Definition mock (sent ints : Outcome) : Service :=
  fun _ req =>
    match parameters (body req) with
    | None => sent
    | Some _ => ints
    end.

Definition http_ok (data : Value) : Outcome :=
  Responds {| status := 200; text := ""; json := Some data |}.

Definition http_error (code : nat) (message : string) : Outcome :=
  Responds {| status := code; text := message; json := None |}.

(** A service that plays a script: the n-th request, whatever it is, gets
    the n-th outcome. *)
Definition scripted (script : list Outcome) : Service :=
  fun log _ =>
    nth (List.length log) script (Rejects (NetworkError "no response left")).

(** A response entry with a label and a score. *)
Definition scored (l : string) (s : Q) : Value :=
  VObject {| obj_label := Some l; obj_score := Some s;
             obj_labels := None; obj_scores := None |}.

(** An intent response that ranks [refund] highest. *)
Definition refund_response : Value :=
  VObject (mkObject None None
             (Some ["refund"; "bug_report"; "complaint"; "question";
                    "praise"; "greeting"])
             (Some [0.9; 0.6; 0.2; 0.1; 0.05; 0.01]%Q)).

(** *** Further vocabulary *)

(** The label [kw] occurs among the active entries. *)
Definition has (kw : string) (intents : list Entry) : Prop :=
  In (Some kw) (map label (active intents)).

(** The entry has a numeric score. *)
Definition has_score (o : JObject) : bool :=
  match obj_score o with
  | Some _ => true
  | None => false
  end.

(** [undefined] or [null]. *)
Definition nullish (v : Value) : bool :=
  match v with
  | VUndefined | VNull => true
  | _ => false
  end.

(** ** The input loop

    The module ends in [while (true)]: read a line, skip it when it trims to
    the empty string, otherwise await [analyze] on the trimmed line and print
    the result.  An exception of [analyze] is not caught and ends the module.
    [session lines] is that loop on the lines read so far: the results
    printed, the exception that ended the loop if one did, and the requests
    issued.  [trim] stands for [String.prototype.trim], of which nothing is
    assumed; printing a result is recording it.  The lines are the strings
    the calls of [rl.question] resolved with, in order: a line that arrives
    while no question is pending never reaches the loop and is not among
    them.  [session] leaves the prompts out; [transcript] below records
    them. *)

Section Cli.

Variable HF_API_KEY : string.
Variable remote : Service.
Variable trim : string -> string.

(** [!text.trim()] *)
Definition blank (line : string) : bool := String.eqb (trim line) "".

Fixpoint session (lines : list string) (log : list Request)
  : list AnalysisResult * option Exn * list Request :=
  match lines with
  | [] => ([], None, log)
  | line :: rest =>
      if blank line then session rest log
      else
        match analyze HF_API_KEY remote (trim line) log with
        | (inl e, log') => ([], Some e, log')
        | (inr result, log') =>
            let '(printed, failure, log'') := session rest log' in
            (result :: printed, failure, log'')
        end
  end.

End Cli.

(** What the loop writes to the terminal: the prompt of [rl.question] and
    the result handed to [console.log]. *)
Inductive Event : Type :=
| Prompted
| Printed (result : AnalysisResult).

Section Terminal.

Variable HF_API_KEY : string.
Variable remote : Service.
Variable trim : string -> string.

(** The loop on the answers [rl.question] resolved with so far, prompts
    included: every iteration starts by writing the prompt, also the one
    after a blank answer, and when the answers are used up the loop has
    written the next prompt and waits. *)
Fixpoint transcript (answers : list string) (log : list Request)
  : list Event * option Exn * list Request :=
  match answers with
  | [] => ([Prompted], None, log)
  | answer :: rest =>
      if blank trim answer then
        let '(events, failure, log') := transcript rest log in
        (Prompted :: events, failure, log')
      else
        match analyze HF_API_KEY remote (trim answer) log with
        | (inl e, log') => ([Prompted], Some e, log')
        | (inr result, log') =>
            let '(events, failure, log'') := transcript rest log' in
            (Prompted :: Printed result :: events, failure, log'')
        end
  end.

End Terminal.

(** The results among the events, and the number of prompts. *)
Definition results_of (events : list Event) : list AnalysisResult :=
  flat_map (fun ev => match ev with
                      | Printed r => [r]
                      | Prompted => []
                      end) events.

Definition prompts_of (events : list Event) : nat :=
  List.length (filter (fun ev => match ev with
                                 | Prompted => true
                                 | Printed _ => false
                                 end) events).

(** [String.prototype.trim] on text whose white space is ASCII (space, tab,
    line feed, vertical tab, form feed, carriage return), for the examples. *)
Definition is_space (c : ascii) : bool :=
  match nat_of_ascii c with
  | 9 | 10 | 11 | 12 | 13 | 32 => true
  | _ => false
  end.

Fixpoint trim_start (s : string) : string :=
  match s with
  | EmptyString => EmptyString
  | String c s' => if is_space c then trim_start s' else s
  end.

Fixpoint trim_end (s : string) : string :=
  match s with
  | EmptyString => EmptyString
  | String c s' =>
      match trim_end s' with
      | EmptyString => if is_space c then EmptyString else String c EmptyString
      | t => String c t
      end
  end.

Definition ascii_trim (s : string) : string := trim_end (trim_start s).

(** ** Facts about numbers and sorting *)

Lemma threshold_below_decimal :
  (threshold < 35 # 100)%Q /\ ((35 # 100) - threshold < 1 # 18014398509481984)%Q.
Proof. split; reflexivity. Qed.

Lemma Qgtb_true (x y : Q) : Qgtb x y = true <-> (y < x)%Q.
Proof.
  unfold Qgtb. rewrite negb_true_iff. split.
  - intros H. apply Qnot_le_lt. intros Hle.
    apply Qle_bool_iff in Hle. congruence.
  - intros H. destruct (Qle_bool x y) eqn:E; [|reflexivity].
    apply Qle_bool_iff in E. exfalso. exact (Qlt_not_le _ _ H E).
Qed.

Lemma Qgtb_false (x y : Q) : Qgtb x y = false <-> (x <= y)%Q.
Proof.
  unfold Qgtb. rewrite negb_false_iff. apply Qle_bool_iff.
Qed.

Lemma gt_true (a b : number) : gt a b = true <-> num_lt b a.
Proof.
  destruct a as [x|], b as [y|]; simpl; try (split; [discriminate|tauto]).
  apply Qgtb_true.
Qed.

Lemma gt_false (a b : number) :
  a <> None -> b <> None -> gt a b = false -> num_le a b.
Proof.
  destruct a as [x|], b as [y|]; simpl; try congruence.
  intros _ _. apply Qgtb_false.
Qed.

Lemma num_lt_trans (a b c : number) : num_lt a b -> num_lt b c -> num_lt a c.
Proof.
  destruct a, b, c; simpl; try tauto. apply Qlt_trans.
Qed.

Lemma num_le_lt_trans (a b c : number) : num_le a b -> num_lt b c -> num_lt a c.
Proof.
  destruct a, b, c; simpl; try tauto. apply Qle_lt_trans.
Qed.

Lemma In_slice0 {A : Type} (n : nat) (l : list A) (x : A) :
  In x (slice0 n l) -> In x l.
Proof.
  unfold slice0. revert l. induction n as [|n IH]; intros [|y l]; simpl; try tauto.
  intros [H|H]; [now left | right; now apply IH].
Qed.

Lemma includes_In (names : list (option string)) (s : string) :
  includes names s = true <-> In (Some s) names.
Proof.
  unfold includes. rewrite existsb_exists. split.
  - intros [n [Hin Heq]]. destruct n as [t|]; simpl in Heq; [|discriminate].
    apply String.eqb_eq in Heq. now subst.
  - intros Hin. exists (Some s). split; [assumption|].
    simpl. apply String.eqb_refl.
Qed.

Lemma strict_eq_true (v : option string) (s : string) :
  strict_eq v s = true <-> v = Some s.
Proof.
  destruct v as [t|]; simpl.
  - rewrite String.eqb_eq. split; congruence.
  - split; discriminate.
Qed.

Section SortFacts.

Context {A : Type} (comparefn : A -> A -> number).

Lemma insert_perm (a : A) (l : list A) :
  Permutation (insert comparefn a l) (a :: l).
Proof.
  induction l as [|b l IH]; simpl; [apply Permutation_refl|].
  destruct (Qgtb (sort_compare comparefn a b) 0).
  - eapply Permutation_trans; [apply perm_skip, IH | apply perm_swap].
  - apply Permutation_refl.
Qed.

Lemma sort_perm (l : list A) : Permutation (sort comparefn l) l.
Proof.
  induction l as [|a l IH]; simpl; [constructor|].
  eapply Permutation_trans; [apply insert_perm | now apply perm_skip].
Qed.

End SortFacts.

Lemma by_score_desc_after (a b : Entry) :
  Qgtb (sort_compare by_score_desc a b) 0 = true <->
  num_lt (score a) (score b).
Proof.
  unfold sort_compare, by_score_desc.
  destruct (score a) as [x|], (score b) as [y|]; simpl;
    try (split; [discriminate | tauto]).
  rewrite Qgtb_true. unfold Qminus. symmetry. apply Qlt_minus_iff.
Qed.

Lemma insert_sorted (a : Entry) (l : list Entry) :
  score a <> None -> Forall (fun e => score e <> None) l ->
  StronglySorted desc l -> StronglySorted desc (insert by_score_desc a l).
Proof.
  intros Ha Hl Hs. induction Hs as [|b l Hs IH Hb]; simpl.
  - repeat constructor.
  - inversion Hl as [|? ? Hbn Hln]; subst.
    destruct (Qgtb (sort_compare by_score_desc a b) 0) eqn:E.
    + apply by_score_desc_after in E.
      constructor; [now apply IH|].
      apply Forall_forall. intros x Hx.
      apply (Permutation_in _ (insert_perm by_score_desc a l)) in Hx.
      destruct Hx as [<- | Hx].
      * unfold desc. destruct (score a), (score b); simpl in *; try tauto.
        now apply Qlt_le_weak.
      * rewrite Forall_forall in Hb. now apply Hb.
    + assert (Hab : desc a b).
      { unfold desc. destruct (score a) as [x|] eqn:Ea; [|congruence].
        destruct (score b) as [y|] eqn:Eb; [|congruence].
        simpl. apply Qnot_lt_le. intros Hlt.
        assert (Qgtb (sort_compare by_score_desc a b) 0 = true); [|congruence].
        apply by_score_desc_after. now rewrite Ea, Eb. }
      constructor; [now constructor|].
      constructor; [assumption|].
      apply Forall_forall. intros x Hx. rewrite Forall_forall in Hb.
      specialize (Hb x Hx). unfold desc in *.
      destruct (score a), (score b), (score x); simpl in *; try tauto.
      eapply Qle_trans; eassumption.
Qed.

Lemma sort_sorted (l : list Entry) :
  Forall (fun e => score e <> None) l ->
  StronglySorted desc (sort by_score_desc l).
Proof.
  induction l as [|a l IH]; intros H; simpl; [constructor|].
  inversion H as [|? ? Ha Hl]; subst. apply insert_sorted; auto.
  apply Forall_forall. intros x Hx.
  apply (Permutation_in _ (sort_perm by_score_desc l)) in Hx.
  rewrite Forall_forall in Hl. now apply Hl.
Qed.

Lemma insert_same_score (q : Q) (a : Entry) (l : list Entry) :
  filter (same_score q) (insert by_score_desc a l) =
  filter (same_score q) (a :: l).
Proof.
  induction l as [|b l IH]; [reflexivity|].
  simpl insert. destruct (Qgtb (sort_compare by_score_desc a b) 0) eqn:E;
    [|reflexivity].
  apply by_score_desc_after in E.
  change (filter (same_score q) (b :: insert by_score_desc a l))
    with (if same_score q b
          then b :: filter (same_score q) (insert by_score_desc a l)
          else filter (same_score q) (insert by_score_desc a l)).
  rewrite IH. simpl.
  destruct (same_score q a) eqn:Ea, (same_score q b) eqn:Eb; try reflexivity.
  exfalso. unfold same_score in Ea, Eb.
  destruct (score a) as [x|], (score b) as [y|]; simpl in E; try discriminate.
  apply Qeq_bool_iff in Ea, Eb. rewrite Ea, Eb in E.
  exact (Qlt_irrefl _ E).
Qed.

Lemma sort_same_score (q : Q) (l : list Entry) :
  filter (same_score q) (sort by_score_desc l) = filter (same_score q) l.
Proof.
  induction l as [|a l IH]; [reflexivity|].
  simpl sort. rewrite insert_same_score. simpl. now rewrite IH.
Qed.

(** ** The Model Client *)

Lemma callModel_answers (key : string)
  (remote : Service) (log : list Request)
  (model : string) (payload : Payload) (data : Value) :
  answers remote log (model_request key model payload) data ->
  callModel key remote model payload log =
  (Ok data, log ++ [model_request key model payload]).
Proof.
  intros (res & Hres & Hok & Hjson).
  unfold callModel, bind, fetch. rewrite Hres. simpl.
  rewrite Hok, Hjson. reflexivity.
Qed.

Lemma callModel_not_ok (key : string)
  (remote : Service) (log : list Request)
  (model : string) (payload : Payload) (res : Response) :
  remote log (model_request key model payload) = Responds res ->
  ok res = false ->
  callModel key remote model payload log =
  (Throw (Error (http_message res)), log ++ [model_request key model payload]).
Proof.
  intros Hres Hok. unfold callModel, bind, fetch. rewrite Hres. simpl.
  rewrite Hok. reflexivity.
Qed.

Lemma callModel_rejects (key : string)
  (remote : Service) (log : list Request)
  (model : string) (payload : Payload) (e : Exn) :
  remote log (model_request key model payload) = Rejects e ->
  callModel key remote model payload log =
  (Throw e, log ++ [model_request key model payload]).
Proof.
  intros Hres. unfold callModel, bind, fetch. rewrite Hres. reflexivity.
Qed.

Lemma callModel_log (key : string)
  (remote : Service) (log : list Request)
  (model : string) (payload : Payload) :
  snd (callModel key remote model payload log) =
  log ++ [model_request key model payload].
Proof.
  unfold callModel, bind, fetch.
  destruct (remote log (model_request key model payload)) as [e|res]; simpl;
    [reflexivity|].
  destruct (ok res); simpl; [|reflexivity].
  destruct (json res); reflexivity.
Qed.

(** ** Feedback bucketing *)

Lemma getFeedbackBucket_active (sentiment : option string) (l l' : list Entry) :
  active l = active l' ->
  getFeedbackBucket sentiment l = getFeedbackBucket sentiment l'.
Proof.
  intros H. unfold getFeedbackBucket.
  change (slice0 3 (filter (fun i => ge (score i) (Some threshold)) l))
    with (active l).
  change (slice0 3 (filter (fun i => ge (score i) (Some threshold)) l'))
    with (active l').
  now rewrite H.
Qed.

Lemma active_drop (l1 l2 : list Entry) (e : Entry) :
  qualifies e = false -> active (l1 ++ e :: l2) = active (l1 ++ l2).
Proof.
  intros H. unfold active. rewrite !filter_app. simpl. now rewrite H.
Qed.

Lemma active_cap (l1 l2 : list Entry) :
  3 <= List.length (filter qualifies l1) -> active (l1 ++ l2) = active l1.
Proof.
  intros H. unfold active, slice0. rewrite filter_app, firstn_app.
  replace (3 - List.length (filter qualifies l1)) with 0 by lia.
  simpl. apply app_nil_r.
Qed.

Lemma active_qualify (l : list Entry) :
  Forall (fun e => qualifies e = true) (active l).
Proof.
  unfold active. apply Forall_forall. intros e He.
  apply In_slice0 in He. now apply filter_In in He.
Qed.

Lemma active_length (l : list Entry) : List.length (active l) <= 3.
Proof. unfold active, slice0. apply firstn_le_length. Qed.

Example bucket_P4 :
  getFeedbackBucket (Some "negative")
    [intent "praise" 0.8; intent "complaint" 0.4] = "complaint".
Proof. reflexivity. Qed.

Example bucket_P5 :
  getFeedbackBucket (Some "neutral") [intent "bug_report" 0.30] = "other".
Proof. reflexivity. Qed.

Example bucket_P6 :
  getFeedbackBucket (Some "neutral")
    [intent "greeting" 0.9; intent "order_status" 0.8;
     intent "account_login" 0.7; intent "complaint" 0.6;
     intent "bug_report" 0.5] = "other".
Proof. reflexivity. Qed.

(** C1: whenever the active intents (score at least 0.35, first three)
    contain the label "complaint", or the sentiment label is "negative",
    the bucket is "complaint", whatever else the active intents contain. *)
Theorem complaint_first (sentiment : option string) (intents : list Entry) :
  In (Some "complaint") (map label (active intents)) \/
  sentiment = Some "negative" ->
  getFeedbackBucket sentiment intents = "complaint".
Proof.
  intros H. unfold getFeedbackBucket.
  change (slice0 3 (filter (fun i => ge (score i) (Some threshold)) intents))
    with (active intents).
  change (map (fun t => label t) (active intents))
    with (map label (active intents)).
  replace (includes (map label (active intents)) "complaint"
           || strict_eq sentiment "negative") with true; [reflexivity|].
  symmetry. apply orb_true_iff.
  destruct H as [H|H]; [left; now apply includes_In | right; now apply strict_eq_true].
Qed.

Lemma complaint_first_witness :
  getFeedbackBucket (Some "negative")
    [intent "praise" 0.8; intent "complaint" 0.4] = "complaint" /\
  getFeedbackBucket (Some "positive")
    [intent "praise" 0.8; intent "complaint" 0.4] = "complaint".
Proof.
  split.
  - apply complaint_first. right. reflexivity.
  - apply complaint_first. left. simpl. right. left. reflexivity.
Defined.

(** C2: the bucket depends only on the entries with score at least 0.35,
    capped at the first three of them in list order: lists with the same
    active entries get the same bucket, an entry below the threshold can be
    removed without changing the bucket, and so can everything that follows
    the third entry at or above it. *)
Theorem bucket_sees_active_only (sentiment : option string) :
  (forall l l', active l = active l' ->
     getFeedbackBucket sentiment l = getFeedbackBucket sentiment l') /\
  (forall l1 e l2, ge (score e) (Some threshold) = false ->
     getFeedbackBucket sentiment (l1 ++ e :: l2) =
     getFeedbackBucket sentiment (l1 ++ l2)) /\
  (forall l1 l2,
     3 <= List.length (filter (fun i => ge (score i) (Some threshold)) l1) ->
     getFeedbackBucket sentiment (l1 ++ l2) = getFeedbackBucket sentiment l1).
Proof.
  split; [|split].
  - intros l l'. apply getFeedbackBucket_active.
  - intros l1 e l2 H. apply getFeedbackBucket_active. now apply active_drop.
  - intros l1 l2 H. apply getFeedbackBucket_active. now apply active_cap.
Qed.

Lemma bucket_sees_active_only_witness :
  getFeedbackBucket (Some "neutral")
    [intent "praise" 0.9; intent "bug_report" 0.30] =
  getFeedbackBucket (Some "neutral") [intent "praise" 0.9] /\
  getFeedbackBucket (Some "neutral")
    ([intent "greeting" 0.9; intent "order_status" 0.8;
      intent "account_login" 0.7] ++
     [intent "complaint" 0.6; intent "bug_report" 0.5]) =
  getFeedbackBucket (Some "neutral")
    [intent "greeting" 0.9; intent "order_status" 0.8;
     intent "account_login" 0.7] /\
  getFeedbackBucket (Some "neutral")
    [intent "complaint" 0.1; intent "question" 0.5] =
  getFeedbackBucket (Some "neutral") [intent "question" 0.5].
Proof.
  split; [|split].
  - apply (proj1 (proj2 (bucket_sees_active_only (Some "neutral")))
             [intent "praise" 0.9] (intent "bug_report" 0.30) []).
    reflexivity.
  - apply (proj2 (proj2 (bucket_sees_active_only (Some "neutral")))).
    simpl. lia.
  - apply (proj1 (bucket_sees_active_only (Some "neutral"))). reflexivity.
Defined.

(** C10: for every sentiment label (also outside positive, negative,
    neutral, and also an absent one) and every intent list (also the empty
    one) the function yields one of the seven bucket names. *)
Theorem getFeedbackBucket_closed (sentiment : option string)
  (intents : list Entry) :
  In (getFeedbackBucket sentiment intents) buckets.
Proof.
  unfold getFeedbackBucket, buckets.
  repeat match goal with
         | |- context [if ?b then _ else _] => destruct b
         end; simpl; tauto.
Qed.

(** ** Sentiment extraction *)

Lemma reduce_better_objects (objs : list JObject) (best : JObject) :
  reduce better (map VObject objs) (VObject best) =
  Ok (VObject (fold_left pick objs best)).
Proof.
  revert best. induction objs as [|o objs IH]; intros best; simpl.
  - reflexivity.
  - unfold pick at 2. destruct (gt (obj_score o) (obj_score best)); apply IH.
Qed.

Lemma pick_same (o : JObject) : pick o o = o.
Proof. unfold pick. now destruct (gt (obj_score o) (obj_score o)). Qed.

Lemma getSentiment_of_carries (data : Value) (o : JObject) (objs : list JObject) :
  carries data (o :: objs) ->
  getSentiment_of data = Ok (entry_of (fold_left pick objs o)).
Proof.
  intros [H | [rest H]]; subst data; unfold getSentiment_of; simpl;
    (destruct (gt (obj_score o) (obj_score o)); simpl;
     rewrite reduce_better_objects; reflexivity).
Qed.

Lemma getSentiment_of_empty (data : Value) :
  carries data [] -> getSentiment_of data = Throw (TypeError "label").
Proof. intros [H | [rest H]]; subst data; reflexivity. Qed.

Lemma fold_pick_In (objs : list JObject) (best : JObject) :
  In (fold_left pick objs best) (best :: objs).
Proof.
  revert best. induction objs as [|o objs IH]; intros best; simpl.
  - now left.
  - destruct (IH (pick best o)) as [H|H]; [|now right; right].
    rewrite <- H. unfold pick.
    destruct (gt (obj_score o) (obj_score best)); [right|]; now left.
Qed.

Lemma fold_pick_no_score (objs : list JObject) (best : JObject) :
  obj_score best = None -> fold_left pick objs best = best.
Proof.
  intros H. induction objs as [|o objs IH]; simpl; [reflexivity|].
  unfold pick at 2. rewrite H.
  destruct (obj_score o); simpl; exact IH.
Qed.

Lemma fold_pick_first_max (objs : list JObject) (best : JObject) :
  obj_score best <> None ->
  Forall (fun o => obj_score o <> None) objs ->
  first_max (best :: objs) (fold_left pick objs best).
Proof.
  revert best. induction objs as [|o objs IH]; intros best Hb Hall; simpl.
  - exists [], []. repeat split; constructor.
  - inversion Hall as [|? ? Ho Hobjs]; subst.
    unfold pick at 2. destruct (gt (obj_score o) (obj_score best)) eqn:E.
    + apply gt_true in E.
      destruct (IH o Ho Hobjs) as (pre & post & Heq & Hpre & Hpost).
      remember (fold_left pick objs o) as top eqn:Htop. clear Htop.
      exists (best :: pre), post. split; [now rewrite Heq|]. split; [|assumption].
      constructor; [|assumption].
      destruct pre as [|p pre]; simpl in Heq; injection Heq as Hhd Htl.
      * now subst top.
      * subst p. inversion Hpre; subst. eapply num_lt_trans; eassumption.
    + apply gt_false in E; [|assumption|assumption].
      destruct (IH best Hb Hobjs) as (pre & post & Heq & Hpre & Hpost).
      remember (fold_left pick objs best) as top eqn:Htop. clear Htop.
      destruct pre as [|p pre]; simpl in Heq; injection Heq as Hhd Htl.
      * subst top post. exists [], (o :: objs).
        split; [reflexivity|]. split; constructor; assumption.
      * subst p objs. exists (best :: o :: pre), post.
        inversion Hpre; subst.
        split; [reflexivity|]. split; [|assumption].
        constructor; [assumption|]. constructor; [|assumption].
        eapply num_le_lt_trans; eassumption.
Qed.

Lemma getSentiment_answers (key : string)
  (remote : Service) (log : list Request)
  (text : string) (data : Value) :
  answers remote log (sentiment_request key text) data ->
  getSentiment key remote text log =
  (getSentiment_of data, log ++ [sentiment_request key text]).
Proof.
  intros H. unfold getSentiment, bind.
  change {| inputs := text; parameters := None |} with (sentiment_payload text).
  rewrite (callModel_answers _ _ _ _ _ _ H). reflexivity.
Qed.

Example sentiment_P1_nested :
  getSentiment_of (VArray [VArray [scored "neg" 0.9]]) = Ok (intent "neg" 0.9).
Proof. reflexivity. Qed.

Example sentiment_P1_flat :
  getSentiment_of (VArray [scored "pos" 0.7; scored "neg" 0.2]) =
  Ok (intent "pos" 0.7).
Proof. reflexivity. Qed.

Example sentiment_P2 :
  getSentiment_of (VArray [scored "a" 0.5; scored "b" 0.5]) =
  Ok (intent "a" 0.5).
Proof. reflexivity. Qed.

(** C3: when the decoded response is an array of entries with numeric
    scores, given flat or wrapped in an outer array, and there is at least
    one entry, [getSentiment] returns the label and score of the entry with
    the greatest score, the first such entry when several share it. *)
Theorem getSentiment_stable_max (key : string)
  (remote : Service) (log : list Request)
  (text : string) (data : Value) (objs : list JObject) :
  answers remote log (sentiment_request key text) data ->
  carries data objs ->
  objs <> [] ->
  Forall (fun o => obj_score o <> None) objs ->
  exists top,
    first_max objs top /\
    fst (getSentiment key remote text log) = Ok (entry_of top).
Proof.
  intros Hans Hdata Hne Hnum.
  destruct objs as [|o objs]; [congruence|].
  inversion Hnum as [|? ? Ho Hobjs]; subst.
  exists (fold_left pick objs o). split.
  - now apply fold_pick_first_max.
  - rewrite (getSentiment_answers _ _ _ _ _ Hans). simpl.
    now apply getSentiment_of_carries.
Qed.

Lemma getSentiment_stable_max_witness :
  exists top,
    first_max
      [ mkObject (Some "a") (Some 0.5%Q) None None;
        mkObject (Some "b") (Some 0.5%Q) None None ] top /\
    fst (getSentiment "key"
           (mock (http_ok (VArray [VArray [scored "a" 0.5; scored "b" 0.5]]))
                 (http_error 500 ""))
           "fine" []) = Ok (entry_of top).
Proof.
  apply (getSentiment_stable_max "key" _ [] "fine"
           (VArray [VArray [scored "a" 0.5; scored "b" 0.5]])).
  - eexists. repeat split.
  - right. exists []. reflexivity.
  - discriminate.
  - repeat constructor; discriminate.
Defined.

(** C5, as stated, fails: an entry without a numeric score makes
    [getSentiment] return a result, not fail. *)
Lemma getSentiment_no_score_counterexample :
  fst (getSentiment "key"
         (mock (http_ok (VArray [VObject (mkObject (Some "neutral") None None None)]))
               (http_error 500 ""))
         "fine" []) = Ok {| label := Some "neutral"; score := None |} /\
  ~ (exists e,
       fst (getSentiment "key"
              (mock (http_ok (VArray [VObject (mkObject (Some "neutral")
                                                 None None None)]))
                    (http_error 500 ""))
              "fine" []) = Throw e).
Proof.
  split; [reflexivity|]. intros [e H]. discriminate H.
Qed.

(** C5, amended: the program has no error of its own for a malformed
    response.  When the array, unwrapped if nested, is empty,
    [getSentiment] fails with the [TypeError] of reading [label] of
    [undefined]; when it is a non-empty array of objects, each with a score
    that is a number or with no [score] property, it does not fail: it
    returns the label and score of one of them, and that is the first one
    when the first one has no [score] property. *)
Theorem getSentiment_malformed (key : string)
  (remote : Service) (log : list Request)
  (text : string) (data : Value) (objs : list JObject) :
  answers remote log (sentiment_request key text) data ->
  carries data objs ->
  (objs = [] ->
     fst (getSentiment key remote text log) = Throw (TypeError "label")) /\
  (objs <> [] ->
     exists top, In top objs /\
       fst (getSentiment key remote text log) = Ok (entry_of top)) /\
  (forall o rest, objs = o :: rest -> obj_score o = None ->
     fst (getSentiment key remote text log) = Ok (entry_of o)).
Proof.
  intros Hans Hdata.
  rewrite (getSentiment_answers _ _ _ _ _ Hans). simpl.
  split; [|split].
  - intros ->. now apply getSentiment_of_empty.
  - intros Hne. destruct objs as [|o objs]; [congruence|].
    exists (fold_left pick objs o). split; [apply fold_pick_In|].
    now apply getSentiment_of_carries.
  - intros o rest -> Hnone.
    rewrite (getSentiment_of_carries _ _ _ Hdata).
    now rewrite fold_pick_no_score.
Qed.

Lemma getSentiment_malformed_witness :
  fst (getSentiment "key" (mock (http_ok (VArray [VArray []])) (http_error 500 ""))
         "fine" []) = Throw (TypeError "label") /\
  fst (getSentiment "key"
         (mock (http_ok (VArray [VObject (mkObject (Some "neutral") None None None);
                                 scored "positive" 0.9]))
               (http_error 500 ""))
         "fine" []) = Ok {| label := Some "neutral"; score := None |}.
Proof.
  split.
  - apply (getSentiment_malformed "key" _ [] "fine" (VArray [VArray []]) []).
    + eexists. repeat split.
    + right. exists []. reflexivity.
    + reflexivity.
  - refine (proj2 (proj2 (getSentiment_malformed "key" _ [] "fine"
                            (VArray [VObject (mkObject (Some "neutral")
                                                None None None);
                                     scored "positive" 0.9])
                            [ mkObject (Some "neutral") None None None;
                              mkObject (Some "positive") (Some 0.9%Q) None None ]
                            _ _))
              (mkObject (Some "neutral") None None None)
              [mkObject (Some "positive") (Some 0.9%Q) None None]
              eq_refl eq_refl).
    + eexists. repeat split.
    + left. reflexivity.
Defined.

(** ** Intent ranking *)

Lemma map_index_shift (s : Q) (scores : list Q) (labels : list string) (k : nat) :
  map_index
    (fun l i => {| label := Some l; score := nth_error (s :: scores) i |})
    (S k) labels =
  map_index (fun l i => {| label := Some l; score := nth_error scores i |})
    k labels.
Proof.
  revert k. induction labels as [|l labels IH]; intros k; simpl; [reflexivity|].
  now rewrite IH.
Qed.

Lemma pair_up_cons (l : string) (labels : list string) (s : Q) (scores : list Q) :
  pair_up (l :: labels) (s :: scores) = intent l s :: pair_up labels scores.
Proof. unfold pair_up. simpl. now rewrite map_index_shift. Qed.

Lemma map_index_no_scores (labels : list string) (k : nat) :
  map_index (fun l i => {| label := Some l; score := nth_error [] i |})
    k labels = map unscored labels.
Proof.
  revert k. induction labels as [|l labels IH]; intros k; simpl; [reflexivity|].
  rewrite IH. unfold unscored. now destruct k.
Qed.

Lemma pair_up_nil (labels : list string) : pair_up labels [] = map unscored labels.
Proof. apply map_index_no_scores. Qed.

Lemma pair_up_split (labels : list string) (scores : list Q) :
  pair_up labels scores =
  paired labels scores ++ map unscored (skipn (List.length scores) labels).
Proof.
  revert scores. induction labels as [|l labels IH]; intros scores.
  - now destruct scores.
  - destruct scores as [|s scores].
    + now rewrite pair_up_nil.
    + rewrite pair_up_cons, IH. reflexivity.
Qed.

Lemma pair_up_length (labels : list string) (scores : list Q) :
  List.length (pair_up labels scores) = List.length labels.
Proof.
  unfold pair_up. generalize 0.
  induction labels as [|l labels IH]; intros k; simpl; [reflexivity|].
  now rewrite IH.
Qed.

Lemma paired_scored (labels : list string) (scores : list Q) :
  Forall (fun e => score e <> None) (paired labels scores).
Proof.
  unfold paired. apply Forall_forall. intros e He.
  apply in_map_iff in He. destruct He as [p [<- _]]. discriminate.
Qed.

Lemma pair_up_paired (labels : list string) (scores : list Q) :
  List.length labels <= List.length scores ->
  pair_up labels scores = paired labels scores.
Proof.
  intros H. rewrite pair_up_split.
  rewrite skipn_all2 by assumption. apply app_nil_r.
Qed.

Lemma getIntent_answers (key : string)
  (remote : Service) (log : list Request)
  (text : string) (data : Value) :
  answers remote log (intent_request key text) data ->
  getIntent key remote text log =
  (getIntent_of data, log ++ [intent_request key text]).
Proof.
  intros H. unfold getIntent, bind.
  change (mkPayload text _) with (intent_payload text).
  rewrite (callModel_answers _ _ _ _ _ _ H). reflexivity.
Qed.

Lemma getIntent_of_object (o : JObject) :
  getIntent_of (VObject o) =
  Ok (sort by_score_desc (pair_up (labels_of o) (scores_of o))).
Proof. reflexivity. Qed.

Example intent_P3 :
  getIntent_of
    (VObject (mkObject None None (Some ["refund"; "praise"; "bug_report"])
                (Some [0.2; 0.9; 0.6]%Q))) =
  Ok [intent "praise" 0.9; intent "bug_report" 0.6; intent "refund" 0.2].
Proof. reflexivity. Qed.

(** C7: when every label has a score at its index, [getIntent] returns the
    paired candidates rearranged so that scores never increase along the
    list, and candidates with the same score keep the order in which they
    were paired. *)
Theorem getIntent_stable_desc (key : string)
  (remote : Service) (log : list Request)
  (text : string) (o : JObject) :
  answers remote log (intent_request key text) (VObject o) ->
  List.length (labels_of o) <= List.length (scores_of o) ->
  exists ranked,
    fst (getIntent key remote text log) = Ok ranked /\
    Permutation ranked (paired (labels_of o) (scores_of o)) /\
    StronglySorted desc ranked /\
    forall q, filter (same_score q) ranked =
              filter (same_score q) (paired (labels_of o) (scores_of o)).
Proof.
  intros Hans Hlen.
  rewrite (getIntent_answers _ _ _ _ _ Hans). simpl fst.
  rewrite getIntent_of_object, (pair_up_paired _ _ Hlen).
  eexists. split; [reflexivity|]. split; [apply sort_perm|]. split.
  - apply sort_sorted, paired_scored.
  - intros q. apply sort_same_score.
Qed.

Lemma getIntent_stable_desc_witness :
  exists ranked,
    fst (getIntent "key"
           (mock (http_error 500 "")
              (http_ok (VObject (mkObject None None
                                   (Some ["refund"; "praise"; "question"])
                                   (Some [0.5; 0.9; 0.5]%Q)))))
           "fine" []) = Ok ranked /\
    Permutation ranked
      [intent "refund" 0.5; intent "praise" 0.9; intent "question" 0.5] /\
    StronglySorted desc ranked /\
    forall q, filter (same_score q) ranked =
              filter (same_score q)
                [intent "refund" 0.5; intent "praise" 0.9; intent "question" 0.5].
Proof.
  apply (getIntent_stable_desc "key" _ [] "fine"
           (mkObject None None (Some ["refund"; "praise"; "question"])
              (Some [0.5; 0.9; 0.5]%Q))).
  - eexists. repeat split.
  - simpl. lia.
Defined.

(** C4, as stated, fails: with more labels than scores the surplus labels
    are returned without a score, and with no [scores] field every label
    is. *)
Lemma getIntent_missing_score_counterexample :
  (exists ranked,
     fst (getIntent "key"
            (mock (http_error 500 "")
               (http_ok (VObject (mkObject None None
                                    (Some ["refund"; "praise"])
                                    (Some [0.9%Q])))))
            "fine" []) = Ok ranked /\
     List.length ranked = 2 /\
     In (unscored "praise") ranked) /\
  fst (getIntent "key"
         (mock (http_error 500 "")
            (http_ok (VObject (mkObject None None (Some ["refund"]) None))))
         "fine" []) = Ok [unscored "refund"].
Proof.
  split; [|reflexivity].
  eexists. split; [reflexivity|]. split; [reflexivity|].
  simpl. right. left. reflexivity.
Qed.

(** C4, amended: [getIntent] pairs every label with the score at the same
    index.  An absent [labels] or [scores] field counts as an empty sequence
    and is no error; the result has one entry per label, so scores beyond
    the labels are dropped and an absent [labels] field gives no entries;
    the entries are the index-wise pairs up to the shorter sequence followed,
    in some order, by the labels beyond the scores, each with an undefined
    score; when the scores are at least as many as the labels no entry lacks
    a score. *)
Theorem getIntent_one_entry_per_label (key : string)
  (remote : Service) (log : list Request)
  (text : string) (o : JObject) :
  answers remote log (intent_request key text) (VObject o) ->
  exists ranked,
    fst (getIntent key remote text log) = Ok ranked /\
    List.length ranked = List.length (labels_of o) /\
    Permutation ranked
      (paired (labels_of o) (scores_of o) ++
       map unscored (skipn (List.length (scores_of o)) (labels_of o))) /\
    (obj_labels o = None -> ranked = []) /\
    (List.length (labels_of o) <= List.length (scores_of o) ->
     Forall (fun e => score e <> None) ranked).
Proof.
  intros Hans.
  rewrite (getIntent_answers _ _ _ _ _ Hans). simpl fst.
  rewrite getIntent_of_object.
  eexists. split; [reflexivity|].
  assert (Hperm := sort_perm by_score_desc
                     (pair_up (labels_of o) (scores_of o))).
  split; [|split; [|split]].
  - rewrite (Permutation_length Hperm). apply pair_up_length.
  - now rewrite <- pair_up_split.
  - intros Hnone. unfold labels_of. rewrite Hnone. reflexivity.
  - intros Hlen. rewrite pair_up_paired by assumption.
    apply Forall_forall. intros e He.
    apply (Permutation_in _ (sort_perm by_score_desc _)) in He.
    revert e He. apply Forall_forall, paired_scored.
Qed.

Lemma getIntent_one_entry_per_label_witness :
  exists ranked,
    fst (getIntent "key"
           (mock (http_error 500 "")
              (http_ok (VObject (mkObject None None
                                   (Some ["refund"; "praise"])
                                   (Some [0.9%Q])))))
           "fine" []) = Ok ranked /\
    List.length ranked = 2 /\
    Permutation ranked [intent "refund" 0.9; unscored "praise"] /\
    (Some ["refund"; "praise"] = None -> ranked = []) /\
    (2 <= 1 -> Forall (fun e => score e <> None) ranked).
Proof.
  apply (getIntent_one_entry_per_label "key" _ [] "fine"
           (mkObject None None (Some ["refund"; "praise"]) (Some [0.9%Q]))).
  eexists. repeat split.
Defined.

(** ** The pipeline *)

Lemma getSentiment_throws (key : string)
  (remote : Service) (log log' : list Request)
  (text : string) (e : Exn) :
  callModel key remote SENTIMENT_MODEL (sentiment_payload text) log =
    (Throw e, log') ->
  getSentiment key remote text log = (Throw e, log').
Proof.
  intros H. unfold getSentiment, bind.
  change {| inputs := text; parameters := None |} with (sentiment_payload text).
  now rewrite H.
Qed.

Lemma getIntent_throws (key : string)
  (remote : Service) (log log' : list Request)
  (text : string) (e : Exn) :
  callModel key remote INTENT_MODEL (intent_payload text) log =
    (Throw e, log') ->
  getIntent key remote text log = (Throw e, log').
Proof.
  intros H. unfold getIntent, bind.
  change (mkPayload text _) with (intent_payload text).
  now rewrite H.
Qed.

Lemma analyze_sentiment_throws (key : string)
  (remote : Service) (log log' : list Request)
  (text : string) (e : Exn) :
  getSentiment key remote text log = (Throw e, log') ->
  analyze key remote text log = (Throw e, log').
Proof. intros H. unfold analyze, bind. now rewrite H. Qed.

Lemma analyze_intent_throws (key : string)
  (remote : Service) (log log1 log2 : list Request)
  (text : string) (s : Entry) (e : Exn) :
  getSentiment key remote text log = (Ok s, log1) ->
  getIntent key remote text log1 = (Throw e, log2) ->
  analyze key remote text log = (Throw e, log2).
Proof. intros H1 H2. unfold analyze, bind. now rewrite H1, H2. Qed.

(** C6: an error of the Model Client in either call is the error of
    [analyze], unchanged, and [analyze] yields no result then; in particular,
    when the response to either call is not 2xx, [analyze] fails with the
    [Error] whose message holds the status and the body of that response. *)
Theorem analyze_propagates (key : string) (remote : Service) (text : string)
  (log : list Request) :
  (forall e log',
     callModel key remote SENTIMENT_MODEL (sentiment_payload text) log =
       (Throw e, log') ->
     analyze key remote text log = (Throw e, log')) /\
  (forall s log1 e log2,
     getSentiment key remote text log = (Ok s, log1) ->
     callModel key remote INTENT_MODEL (intent_payload text) log1 =
       (Throw e, log2) ->
     analyze key remote text log = (Throw e, log2)) /\
  (forall res,
     remote log (sentiment_request key text) = Responds res ->
     ok res = false ->
     analyze key remote text log =
     (Throw (Error (http_message res)), log ++ [sentiment_request key text])) /\
  (forall s log1 res,
     getSentiment key remote text log = (Ok s, log1) ->
     remote log1 (intent_request key text) = Responds res ->
     ok res = false ->
     analyze key remote text log =
     (Throw (Error (http_message res)), log1 ++ [intent_request key text])).
Proof.
  assert (HA : forall e log',
             callModel key remote SENTIMENT_MODEL (sentiment_payload text) log =
               (Throw e, log') ->
             analyze key remote text log = (Throw e, log')).
  { intros e log' H. now apply analyze_sentiment_throws, getSentiment_throws. }
  assert (HB : forall s log1 e log2,
             getSentiment key remote text log = (Ok s, log1) ->
             callModel key remote INTENT_MODEL (intent_payload text) log1 =
               (Throw e, log2) ->
             analyze key remote text log = (Throw e, log2)).
  { intros s log1 e log2 Hs Hi.
    eapply analyze_intent_throws; [eassumption|].
    now apply getIntent_throws. }
  repeat split; try assumption.
  - intros res Hres Hok. apply HA. now apply callModel_not_ok.
  - intros s log1 res Hs Hres Hok. apply (HB s log1); [assumption|].
    now apply callModel_not_ok.
Qed.

Example analyze_P9 :
  fst (analyze "key"
         (mock (http_error 500 "Internal Server Error") (http_ok VNull))
         "fine" []) =
  Throw (Error "HTTP 500 → Internal Server Error").
Proof. reflexivity. Qed.

Lemma analyze_propagates_witness :
  analyze "key" (mock (http_error 500 "down") (http_ok VNull)) "fine" [] =
    (Throw (Error (http_message (mkResponse 500 "down" None))),
     [sentiment_request "key" "fine"]) /\
  analyze "key"
    (mock (http_ok (VArray [scored "positive" 0.9])) (http_error 503 "busy"))
    "fine" [] =
    (Throw (Error (http_message (mkResponse 503 "busy" None))),
     [sentiment_request "key" "fine"; intent_request "key" "fine"]) /\
  analyze "key"
    (mock (Rejects (NetworkError "ECONNREFUSED")) (http_ok VNull)) "fine" [] =
    (Throw (NetworkError "ECONNREFUSED"), [sentiment_request "key" "fine"]).
Proof.
  split; [|split].
  - apply (proj1 (proj2 (proj2
             (analyze_propagates "key"
                (mock (http_error 500 "down") (http_ok VNull)) "fine" []))));
      reflexivity.
  - apply (proj2 (proj2 (proj2
             (analyze_propagates "key"
                (mock (http_ok (VArray [scored "positive" 0.9]))
                   (http_error 503 "busy")) "fine" [])))
             (intent "positive" 0.9) [sentiment_request "key" "fine"]);
      reflexivity.
  - apply (proj1
             (analyze_propagates "key"
                (mock (Rejects (NetworkError "ECONNREFUSED")) (http_ok VNull))
                "fine" [])).
    reflexivity.
Defined.

(** C8: when both sub-calls succeed, the result holds the text passed in,
    the whole result of [getSentiment], the first five ranked intents (all of
    them when there are fewer) and the bucket computed from the sentiment
    label and the whole ranked list. *)
Theorem analyze_assembles (key : string)
  (remote : Service) (text : string)
  (log log1 log2 : list Request) (s : Entry) (intents : list Entry) :
  getSentiment key remote text log = (Ok s, log1) ->
  getIntent key remote text log1 = (Ok intents, log2) ->
  analyze key remote text log =
  (Ok {| input := text;
         sentiment := s;
         intents_ranked := firstn 5 intents;
         feedback_bucket := getFeedbackBucket (label s) intents |}, log2) /\
  (List.length intents <= 5 -> firstn 5 intents = intents).
Proof.
  intros Hs Hi. split.
  - unfold analyze, bind. rewrite Hs, Hi. reflexivity.
  - apply firstn_all2.
Qed.

Example analyze_P7 :
  fst (analyze "key"
         (mock (http_ok (VArray [VArray [scored "negative" 0.8;
                                          scored "neutral" 0.15;
                                          scored "positive" 0.05]]))
               (http_ok refund_response))
         "I want a refund, this is broken" []) =
  Ok {| input := "I want a refund, this is broken";
        sentiment := intent "negative" 0.8;
        intents_ranked :=
          [intent "refund" 0.9; intent "bug_report" 0.6;
           intent "complaint" 0.2; intent "question" 0.1;
           intent "praise" 0.05];
        feedback_bucket := "complaint" |}.
Proof. reflexivity. Qed.

Lemma analyze_assembles_witness :
  analyze "key"
    (mock (http_ok (VArray [scored "negative" 0.8])) (http_ok refund_response))
    "I want a refund, this is broken" [] =
  (Ok {| input := "I want a refund, this is broken";
         sentiment := intent "negative" 0.8;
         intents_ranked :=
           firstn 5 [intent "refund" 0.9; intent "bug_report" 0.6;
                     intent "complaint" 0.2; intent "question" 0.1;
                     intent "praise" 0.05; intent "greeting" 0.01];
         feedback_bucket :=
           getFeedbackBucket (Some "negative")
             [intent "refund" 0.9; intent "bug_report" 0.6;
              intent "complaint" 0.2; intent "question" 0.1;
              intent "praise" 0.05; intent "greeting" 0.01] |},
   [sentiment_request "key" "I want a refund, this is broken";
    intent_request "key" "I want a refund, this is broken"]).
Proof.
  apply (analyze_assembles "key" _ _ []
           [sentiment_request "key" "I want a refund, this is broken"]);
    reflexivity.
Defined.

(** C9: the result of [analyze] is a function of the text and of the two
    responses: two runs, whatever the services behind them and whatever was
    requested before, give the same result when the sentiment call gets the
    same response in both and the intent call gets the same response in
    both. *)
Theorem analyze_deterministic (key : string)
  (remote1 remote2 : Service)
  (log1 log2 : list Request) (text : string) :
  remote1 log1 (sentiment_request key text) =
  remote2 log2 (sentiment_request key text) ->
  remote1 (log1 ++ [sentiment_request key text]) (intent_request key text) =
  remote2 (log2 ++ [sentiment_request key text]) (intent_request key text) ->
  fst (analyze key remote1 text log1) = fst (analyze key remote2 text log2).
Proof.
  intros Hs Hi.
  unfold analyze, getSentiment, getIntent, callModel, bind, fetch, lift.
  change (model_request key SENTIMENT_MODEL _) with (sentiment_request key text).
  change (model_request key INTENT_MODEL _) with (intent_request key text).
  rewrite Hs.
  destruct (remote2 log2 (sentiment_request key text)) as [e|res]; simpl;
    [reflexivity|].
  destruct (ok res); simpl; [|reflexivity].
  destruct (json res) as [data|]; simpl; [|reflexivity].
  destruct (getSentiment_of data) as [e|s]; simpl; [reflexivity|].
  rewrite Hi.
  destruct (remote2 (log2 ++ [sentiment_request key text])
              (intent_request key text)) as [e|res']; simpl; [reflexivity|].
  destruct (ok res'); simpl; [|reflexivity].
  destruct (json res') as [data'|]; simpl; [|reflexivity].
  destruct (getIntent_of data'); reflexivity.
Qed.

Lemma analyze_deterministic_witness :
  fst (analyze "key"
         (mock (http_ok (VArray [scored "negative" 0.8]))
               (http_ok refund_response))
         "fine" [sentiment_request "key" "earlier"]) =
  fst (analyze "key"
         (scripted [http_ok (VArray [scored "negative" 0.8]);
                    http_ok refund_response])
         "fine" []).
Proof. apply analyze_deterministic; reflexivity. Defined.

(** ** More on the Model Client *)

Lemma string_of_uint_separates (d1 d2 : Decimal.uint) (t1 t2 : string) :
  (NilEmpty.string_of_uint d1 ++ " → " ++ t1 =
   NilEmpty.string_of_uint d2 ++ " → " ++ t2)%string ->
  d1 = d2 /\ t1 = t2.
Proof.
  revert d2. induction d1 as [|d1 IH|d1 IH|d1 IH|d1 IH|d1 IH|d1 IH|d1 IH|d1 IH|d1 IH|d1 IH];
    intros d2; destruct d2; simpl; intros H; try discriminate H;
    try (injection H as H; destruct (IH _ H) as [-> ->]; now split).
  injection H as ->. now split.
Qed.

Lemma show_nat_inj (n m : nat) (t1 t2 : string) :
  (show_nat n ++ " → " ++ t1 = show_nat m ++ " → " ++ t2)%string ->
  n = m /\ t1 = t2.
Proof.
  unfold show_nat. intros H.
  apply string_of_uint_separates in H. destruct H as [H ->]. split; [|reflexivity].
  rewrite <- (DecimalNat.Unsigned.of_to n), <- (DecimalNat.Unsigned.of_to m).
  now rewrite H.
Qed.

Lemma callModel_ok_inv (key : string) (remote : Service)
  (log : list Request) (model : string) (payload : Payload) (data : Value) :
  fst (callModel key remote model payload log) = Ok data ->
  answers remote log (model_request key model payload) data.
Proof.
  unfold callModel, bind, fetch, throw, ret, Ok, Throw, answers.
  destruct (remote log (model_request key model payload)) as [e|res]; simpl;
    [discriminate|].
  destruct (ok res) eqn:Eok; simpl; [|discriminate].
  destruct (json res) as [v|] eqn:Ej; simpl; [|discriminate].
  intros H. exists res. repeat split; congruence.
Qed.

(** X1: [callModel] issues exactly one request, whatever the outcome (a
    result, a rejection, a status that is not 2xx, a body that is not JSON):
    a POST to the model's inference URL with the bearer token, the JSON
    content type and the payload as body. *)
Theorem callModel_one_request (key : string) (remote : Service)
  (log : list Request) (model : string) (payload : Payload) :
  snd (callModel key remote model payload log) =
  log ++ [ {| url := ("https://router.huggingface.co/hf-inference/models/"
                      ++ model)%string;
              method := "POST";
              headers := [ ("Authorization", ("Bearer " ++ key)%string);
                           ("Content-Type", "application/json") ];
              body := payload |} ].
Proof. apply callModel_log. Qed.

(** X2: [callModel] returns a value exactly when the request is answered
    with a status from 200 to 299 and a body that decodes, and the value is
    the decoded body. *)
Theorem callModel_returns_iff (key : string) (remote : Service)
  (log : list Request) (model : string) (payload : Payload) (data : Value) :
  fst (callModel key remote model payload log) = Ok data <->
  exists res,
    remote log (model_request key model payload) = Responds res /\
    200 <= status res <= 299 /\ json res = Some data.
Proof.
  assert (Hok : forall res, ok res = true <-> 200 <= status res <= 299).
  { intros res. unfold ok. rewrite andb_true_iff, !Nat.leb_le. tauto. }
  unfold callModel, bind, fetch, throw, ret, Ok, Throw.
  destruct (remote log (model_request key model payload)) as [e|res]; simpl.
  - split; [discriminate|]. intros (res & H & _). discriminate H.
  - destruct (ok res) eqn:Eok; simpl.
    + apply Hok in Eok. destruct (json res) as [v|] eqn:Ej; simpl.
      * split.
        -- intros H. exists res. repeat split; try tauto. congruence.
        -- intros (res' & H & _ & Hj). congruence.
      * split; [discriminate|]. intros (res' & H & _ & Hj). congruence.
    + split; [discriminate|]. intros (res' & H & Hs & _).
      assert (res' = res) by congruence. subst res'.
      apply Hok in Hs. congruence.
Qed.

(** X3: [callModel] throws in three cases only: [fetch] rejects, and the
    rejection is thrown on; the status is outside 200 to 299, and the
    [Error] with the status and body is thrown; the body of a 2xx response
    is not JSON, and [SyntaxError] is thrown. *)
Theorem callModel_throws_iff (key : string) (remote : Service)
  (log : list Request) (model : string) (payload : Payload) (e : Exn) :
  fst (callModel key remote model payload log) = Throw e <->
  remote log (model_request key model payload) = Rejects e \/
  exists res,
    remote log (model_request key model payload) = Responds res /\
    ((ok res = false /\ e = Error (http_message res)) \/
     (ok res = true /\ json res = None /\ e = SyntaxError)).
Proof.
  unfold callModel, bind, fetch, throw, ret, Ok, Throw, http_message.
  destruct (remote log (model_request key model payload)) as [e'|res]; simpl.
  - split.
    + intros H. left. congruence.
    + intros [H | (res & H & _)]; [congruence | discriminate H].
  - destruct (ok res) eqn:Eok; simpl.
    + destruct (json res) as [v|] eqn:Ej; simpl.
      * split; [discriminate|].
        intros [H | (res' & H & [[H1 _] | (_ & H2 & _)])];
          [discriminate H | congruence | congruence].
      * split.
        -- intros H. right. exists res. split; [reflexivity|]. right.
           repeat split; congruence.
        -- intros [H | (res' & H & [[H1 _] | (_ & _ & ->)])];
             [discriminate H | congruence | reflexivity].
    + split.
      * intros H. right. exists res. split; [reflexivity|]. left.
        split; congruence.
      * intros [H | (res' & H & [[_ ->] | (H1 & _)])];
          [discriminate H | congruence | congruence].
Qed.

(** X4: the message of the error for a response that is not 2xx determines
    the status and the body: two responses with the same message have the
    same status and the same body. *)
Theorem http_message_inj (res1 res2 : Response) :
  http_message res1 = http_message res2 ->
  status res1 = status res2 /\ text res1 = text res2.
Proof.
  unfold http_message. intros H. simpl in H.
  injection H as H. now apply show_nat_inj.
Qed.

Lemma http_message_inj_witness :
  status (mkResponse 500 "down" None) = status (mkResponse 500 "down" (Some VNull)) /\
  text (mkResponse 500 "down" None) = text (mkResponse 500 "down" (Some VNull)).
Proof. apply http_message_inj. reflexivity. Defined.

(** ** More on sentiment extraction *)

Lemma fold_pick_scored_only (objs : list JObject) (best : JObject) :
  fold_left pick objs best = fold_left pick (filter has_score objs) best.
Proof.
  revert best. induction objs as [|o objs IH]; intros best; [reflexivity|].
  simpl. unfold has_score at 1. destruct (obj_score o) as [q|] eqn:E; simpl.
  - apply IH.
  - replace (pick best o) with best; [apply IH|].
    unfold pick. now rewrite E.
Qed.

Lemma filter_has_score (objs : list JObject) :
  Forall (fun o => obj_score o <> None) (filter has_score objs).
Proof.
  apply Forall_forall. intros o Ho. apply filter_In in Ho.
  destruct Ho as [_ Ho]. unfold has_score in Ho.
  now destruct (obj_score o).
Qed.

Lemma reduce_better_nullish (pre : list JObject) (v : Value)
  (rest : list Value) (best : JObject) :
  nullish v = true ->
  reduce better (map VObject pre ++ v :: rest) (VObject best) =
  Throw (TypeError "score").
Proof.
  intros Hv. revert best. induction pre as [|o pre IH]; intros best; simpl.
  - now destruct v.
  - destruct (gt (obj_score o) (obj_score best)); apply IH.
Qed.

(** X5: when the decoded response is not an array ([null], or an object such
    as an error report sent with a 2xx status), [getSentiment] fails with the
    [TypeError] of calling [reduce] on it. *)
Theorem getSentiment_not_array (key : string) (remote : Service)
  (log : list Request) (text : string) (data : Value) :
  answers remote log (sentiment_request key text) data ->
  isArray data = false ->
  fst (getSentiment key remote text log) = Throw (TypeError "reduce").
Proof.
  intros Hans Hdata. rewrite (getSentiment_answers _ _ _ _ _ Hans). simpl.
  destruct data; try reflexivity. discriminate Hdata.
Qed.

Lemma getSentiment_not_array_witness :
  fst (getSentiment "key"
         (mock (http_ok (VObject (mkObject None None None None)))
               (http_ok refund_response))
         "fine" []) = Throw (TypeError "reduce").
Proof.
  apply (getSentiment_not_array "key" _ [] "fine"
           (VObject (mkObject None None None None))).
  - eexists. repeat split.
  - reflexivity.
Defined.

(** X6: a [null] among the entries, after any number of objects, is not
    skipped: [getSentiment] fails with the [TypeError] of reading [score] of
    it, whether the array comes flat or wrapped. *)
Theorem getSentiment_null_entry (key : string) (remote : Service)
  (log : list Request) (text : string) (data : Value)
  (pre : list JObject) (v : Value) (rest outer : list Value) :
  answers remote log (sentiment_request key text) data ->
  nullish v = true ->
  data = VArray (map VObject pre ++ v :: rest) \/
  data = VArray (VArray (map VObject pre ++ v :: rest) :: outer) ->
  fst (getSentiment key remote text log) = Throw (TypeError "score").
Proof.
  intros Hans Hv Hdata. rewrite (getSentiment_answers _ _ _ _ _ Hans). simpl.
  destruct Hdata as [-> | ->]; unfold getSentiment_of.
  - destruct pre as [|o pre]; simpl.
    + now destruct v.
    + destruct (gt (obj_score o) (obj_score o)); simpl;
        now rewrite reduce_better_nullish.
  - destruct pre as [|o pre]; simpl.
    + now destruct v.
    + destruct (gt (obj_score o) (obj_score o)); simpl;
        now rewrite reduce_better_nullish.
Qed.

Lemma getSentiment_null_entry_witness :
  fst (getSentiment "key"
         (mock (http_ok (VArray [scored "positive" 0.9; VNull]))
               (http_ok refund_response))
         "fine" []) = Throw (TypeError "score").
Proof.
  apply (getSentiment_null_entry "key" _ [] "fine"
           (VArray [scored "positive" 0.9; VNull])
           [mkObject (Some "positive") (Some 0.9%Q) None None] VNull [] []).
  - eexists. repeat split.
  - reflexivity.
  - left. reflexivity.
Defined.

(** X7: when the first entry has a numeric score, entries without one are
    passed over: the result is the first entry with the greatest score among
    the entries that have a score. *)
Theorem getSentiment_ignores_unscored (key : string) (remote : Service)
  (log : list Request) (text : string) (data : Value)
  (o : JObject) (rest : list JObject) :
  answers remote log (sentiment_request key text) data ->
  carries data (o :: rest) ->
  obj_score o <> None ->
  exists top,
    first_max (filter has_score (o :: rest)) top /\
    fst (getSentiment key remote text log) = Ok (entry_of top).
Proof.
  intros Hans Hdata Ho. rewrite (getSentiment_answers _ _ _ _ _ Hans). simpl fst.
  rewrite (getSentiment_of_carries _ _ _ Hdata), fold_pick_scored_only.
  exists (fold_left pick (filter has_score rest) o). split; [|reflexivity].
  simpl filter. unfold has_score at 1.
  destruct (obj_score o) eqn:E; [|congruence].
  apply fold_pick_first_max; [congruence | apply filter_has_score].
Qed.

Lemma getSentiment_ignores_unscored_witness :
  exists top,
    first_max
      [ mkObject (Some "neutral") (Some 0.4%Q) None None;
        mkObject (Some "positive") (Some 0.6%Q) None None ] top /\
    fst (getSentiment "key"
           (mock (http_ok (VArray [scored "neutral" 0.4;
                                   VObject (mkObject (Some "negative") None None None);
                                   scored "positive" 0.6]))
                 (http_ok refund_response))
           "fine" []) = Ok (entry_of top).
Proof.
  apply (getSentiment_ignores_unscored "key" _ [] "fine"
           (VArray [scored "neutral" 0.4;
                    VObject (mkObject (Some "negative") None None None);
                    scored "positive" 0.6])
           (mkObject (Some "neutral") (Some 0.4%Q) None None)
           [ mkObject (Some "negative") None None None;
             mkObject (Some "positive") (Some 0.6%Q) None None ]).
  - eexists. repeat split.
  - left. reflexivity.
  - discriminate.
Defined.

(** X8: wrapping the array of entries in an outer array, with whatever
    follows it there, changes nothing: the nested and the flat form of the
    same entries give the same result or the same exception. *)
Theorem getSentiment_wrapping (key : string) (remote1 remote2 : Service)
  (log1 log2 : list Request) (text : string) (objs : list JObject)
  (outer : list Value) :
  answers remote1 log1 (sentiment_request key text)
    (VArray (map VObject objs)) ->
  answers remote2 log2 (sentiment_request key text)
    (VArray (VArray (map VObject objs) :: outer)) ->
  fst (getSentiment key remote1 text log1) =
  fst (getSentiment key remote2 text log2).
Proof.
  intros H1 H2.
  rewrite (getSentiment_answers _ _ _ _ _ H1), (getSentiment_answers _ _ _ _ _ H2).
  simpl. destruct objs as [|o objs].
  - reflexivity.
  - rewrite (getSentiment_of_carries (VArray (map VObject (o :: objs))) o objs)
      by (left; reflexivity).
    symmetry. apply getSentiment_of_carries. right. now exists outer.
Qed.

Lemma getSentiment_wrapping_witness :
  fst (getSentiment "key"
         (mock (http_ok (VArray [scored "positive" 0.7; scored "negative" 0.2]))
               (http_ok refund_response))
         "fine" []) =
  fst (getSentiment "key"
         (mock (http_ok (VArray [VArray [scored "positive" 0.7;
                                          scored "negative" 0.2]; VNull]))
               (http_ok refund_response))
         "fine" []).
Proof.
  apply (getSentiment_wrapping "key" _ _ [] [] "fine"
           [ mkObject (Some "positive") (Some 0.7%Q) None None;
             mkObject (Some "negative") (Some 0.2%Q) None None ] [VNull]).
  - eexists. repeat split.
  - eexists. repeat split.
Defined.

(** ** More on intent ranking *)

Lemma sort_fixed (l : list Entry) :
  StronglySorted desc l -> sort by_score_desc l = l.
Proof.
  induction 1 as [|a l Hs IH Ha]; [reflexivity|].
  simpl. rewrite IH. destruct l as [|b l]; [reflexivity|].
  simpl. destruct (Qgtb (sort_compare by_score_desc a b) 0) eqn:E;
    [|reflexivity].
  exfalso. apply by_score_desc_after in E.
  inversion Ha as [|? ? Hab _]; subst. unfold desc in Hab.
  destruct (score a), (score b); simpl in *; try tauto.
  exact (Qle_not_lt _ _ Hab E).
Qed.

Lemma pair_up_labels (labels : list string) (scores : list Q) :
  map label (pair_up labels scores) = map Some labels.
Proof.
  unfold pair_up. generalize 0.
  induction labels as [|l labels IH]; intros k; simpl; [reflexivity|].
  now rewrite IH.
Qed.

(** X9: when the decoded response is [null], [getIntent] fails with the
    [TypeError] of reading [labels] of it; when it is an array, which has
    neither [labels] nor [scores], it returns the empty ranking and no
    error. *)
Theorem getIntent_null_or_array (key : string) (remote : Service)
  (log : list Request) (text : string) (data : Value) :
  answers remote log (intent_request key text) data ->
  (nullish data = true ->
   fst (getIntent key remote text log) = Throw (TypeError "labels")) /\
  (isArray data = true -> fst (getIntent key remote text log) = Ok []).
Proof.
  intros Hans. rewrite (getIntent_answers _ _ _ _ _ Hans). simpl fst.
  split; intros H; destruct data; try discriminate H; reflexivity.
Qed.

Lemma getIntent_null_or_array_witness :
  fst (getIntent "key"
         (mock (http_ok (VArray [scored "positive" 0.9])) (http_ok VNull))
         "fine" []) = Throw (TypeError "labels") /\
  fst (getIntent "key"
         (mock (http_ok (VArray [scored "positive" 0.9]))
               (http_ok (VArray [scored "refund" 0.9; scored "praise" 0.4])))
         "fine" []) = Ok [].
Proof.
  split.
  - apply (proj1 (getIntent_null_or_array "key" _ [] "fine" VNull
                    (ex_intro _ (mkResponse 200 "" (Some VNull))
                       (conj eq_refl (conj eq_refl eq_refl))))).
    reflexivity.
  - apply (proj2 (getIntent_null_or_array "key" _ [] "fine"
                    (VArray [scored "refund" 0.9; scored "praise" 0.4])
                    (ex_intro _ (mkResponse 200 ""
                                   (Some (VArray [scored "refund" 0.9;
                                                  scored "praise" 0.4])))
                       (conj eq_refl (conj eq_refl eq_refl))))).
    reflexivity.
Defined.

(** X10: a response whose labels all have scores and already come in
    descending order of score is returned in the order it came. *)
Theorem getIntent_ranked_unchanged (key : string) (remote : Service)
  (log : list Request) (text : string) (o : JObject) :
  answers remote log (intent_request key text) (VObject o) ->
  List.length (labels_of o) <= List.length (scores_of o) ->
  StronglySorted desc (paired (labels_of o) (scores_of o)) ->
  fst (getIntent key remote text log) =
  Ok (paired (labels_of o) (scores_of o)).
Proof.
  intros Hans Hlen Hsorted.
  rewrite (getIntent_answers _ _ _ _ _ Hans). simpl fst.
  rewrite getIntent_of_object, (pair_up_paired _ _ Hlen).
  now rewrite sort_fixed.
Qed.

Lemma getIntent_ranked_unchanged_witness :
  fst (getIntent "key"
         (mock (http_ok (VArray [scored "negative" 0.8]))
               (http_ok refund_response))
         "fine" []) =
  Ok [ intent "refund" 0.9; intent "bug_report" 0.6; intent "complaint" 0.2;
       intent "question" 0.1; intent "praise" 0.05; intent "greeting" 0.01 ].
Proof.
  apply (getIntent_ranked_unchanged "key" _ [] "fine"
           (mkObject None None
              (Some ["refund"; "bug_report"; "complaint"; "question";
                     "praise"; "greeting"])
              (Some [0.9; 0.6; 0.2; 0.1; 0.05; 0.01]%Q))).
  - eexists. repeat split.
  - simpl. lia.
  - repeat constructor; unfold desc; simpl; discriminate.
Defined.

(** X11: the ranking neither drops nor invents a label: whatever the
    scores, also when some or all are missing, the labels of the returned
    entries are the labels of the response, each as often as there. *)
Theorem getIntent_keeps_labels (key : string) (remote : Service)
  (log : list Request) (text : string) (o : JObject) :
  answers remote log (intent_request key text) (VObject o) ->
  exists ranked,
    fst (getIntent key remote text log) = Ok ranked /\
    Permutation (map label ranked) (map Some (labels_of o)).
Proof.
  intros Hans. rewrite (getIntent_answers _ _ _ _ _ Hans). simpl fst.
  rewrite getIntent_of_object. eexists. split; [reflexivity|].
  rewrite <- (pair_up_labels (labels_of o) (scores_of o)).
  apply Permutation_map, sort_perm.
Qed.

Lemma getIntent_keeps_labels_witness :
  exists ranked,
    fst (getIntent "key"
           (mock (http_ok (VArray [scored "negative" 0.8]))
                 (http_ok (VObject (mkObject None None
                                      (Some ["refund"; "praise"; "refund"])
                                      (Some [0.1%Q])))))
           "fine" []) = Ok ranked /\
    Permutation (map label ranked)
      [Some "refund"; Some "praise"; Some "refund"].
Proof.
  apply (getIntent_keeps_labels "key" _ [] "fine"
           (mkObject None None (Some ["refund"; "praise"; "refund"])
              (Some [0.1%Q]))).
  eexists. repeat split.
Defined.

(** ** More on feedback bucketing *)

Lemma bucket_by_includes (sentiment : option string) (l l' : list Entry) :
  (forall kw, includes (map label (active l)) kw =
              includes (map label (active l')) kw) ->
  getFeedbackBucket sentiment l = getFeedbackBucket sentiment l'.
Proof.
  intros H. unfold getFeedbackBucket.
  change (slice0 3 (filter (fun i => ge (score i) (Some threshold)) l))
    with (active l).
  change (slice0 3 (filter (fun i => ge (score i) (Some threshold)) l'))
    with (active l').
  change (map (fun t => label t) (active l)) with (map label (active l)).
  change (map (fun t => label t) (active l')) with (map label (active l')).
  now rewrite !H.
Qed.

Lemma rule1_complaint (sentiment : option string) (l : list Entry) :
  has "complaint" l \/ sentiment = Some "negative" ->
  getFeedbackBucket sentiment l = "complaint".
Proof.
  intros H. unfold getFeedbackBucket.
  change (slice0 3 (filter (fun i => ge (score i) (Some threshold)) l))
    with (active l).
  change (map (fun t => label t) (active l)) with (map label (active l)).
  replace (includes (map label (active l)) "complaint"
           || strict_eq sentiment "negative") with true; [reflexivity|].
  symmetry. apply orb_true_iff.
  destruct H as [H|H]; [left; now apply includes_In
                       | right; now apply strict_eq_true].
Qed.

Lemma bucket_in_buckets (sentiment : option string) (l : list Entry) :
  In (getFeedbackBucket sentiment l) buckets.
Proof.
  unfold getFeedbackBucket, buckets.
  destruct (includes _ "complaint" || strict_eq sentiment "negative");
    [simpl; tauto|].
  destruct (includes _ "bug_report"); [simpl; tauto|].
  destruct (includes _ "refund" || includes _ "cancel_order"); [simpl; tauto|].
  destruct (includes _ "feature_request"); [simpl; tauto|].
  destruct (includes _ "praise" || strict_eq sentiment "positive");
    [simpl; tauto|].
  destruct (includes _ "question"); simpl; tauto.
Qed.

Lemma none_active (l : list Entry) :
  Forall (fun e => qualifies e = false) l -> active l = [].
Proof.
  intros H. unfold active. replace (filter qualifies l) with (@nil Entry);
    [reflexivity|].
  induction H as [|e l He _ IH]; [reflexivity|]. simpl. now rewrite He.
Qed.

Lemma below_stays_below (a b : Entry) :
  desc a b -> qualifies a = false -> qualifies b = false.
Proof.
  unfold desc, qualifies. destruct (score a) as [x|], (score b) as [y|];
    simpl; try tauto.
  intros Hle Ha. destruct (Qle_bool threshold y) eqn:E; [|reflexivity].
  apply Qle_bool_iff in E.
  assert (Hx : Qle_bool threshold x = true).
  { apply Qle_bool_iff. eapply Qle_trans; eassumption. }
  congruence.
Qed.

Lemma slice_filter_ranked (l : list Entry) :
  StronglySorted desc l ->
  forall n, slice0 n (filter qualifies l) = filter qualifies (slice0 n l).
Proof.
  unfold slice0. induction 1 as [|a l Hs IH Ha]; intros n.
  - now destruct n.
  - destruct n as [|n]; [reflexivity|]. simpl.
    destruct (qualifies a) eqn:E; simpl.
    + now rewrite IH.
    + assert (Hl : Forall (fun e => qualifies e = false) l).
      { apply Forall_forall. intros b Hb. rewrite Forall_forall in Ha.
        eapply below_stays_below; [apply Ha, Hb | exact E]. }
      rewrite <- IH.
      replace (filter qualifies l) with (@nil Entry); [now destruct n|].
      clear -Hl. induction Hl as [|e l He _ IH]; [reflexivity|].
      simpl. now rewrite He.
Qed.

Lemma active_of_ranked (l : list Entry) (n : nat) :
  StronglySorted desc l -> 3 <= n -> active (slice0 n l) = active l.
Proof.
  intros Hs Hn. unfold active.
  rewrite <- (slice_filter_ranked l Hs n). unfold slice0.
  rewrite firstn_firstn. now replace (Nat.min 3 n) with 3 by lia.
Qed.

(** X12: the rules form a cascade in which each bucket has exactly one
    condition: "complaint" for an active complaint or negative sentiment;
    failing that "bug_report" for an active bug report; failing that
    "refund/cancellation" for an active refund or cancel_order; failing that
    "suggestion" for an active feature_request; failing that "praise" for an
    active praise or positive sentiment; failing that "question" for an
    active question; and "other" exactly when none of these holds. *)
Theorem bucket_cascade (sentiment : option string) (intents : list Entry) :
  let bucket := getFeedbackBucket sentiment intents in
  let r1 := has "complaint" intents \/ sentiment = Some "negative" in
  let r2 := has "bug_report" intents in
  let r3 := has "refund" intents \/ has "cancel_order" intents in
  let r4 := has "feature_request" intents in
  let r5 := has "praise" intents \/ sentiment = Some "positive" in
  let r6 := has "question" intents in
  (bucket = "complaint" <-> r1) /\
  (bucket = "bug_report" <-> ~ r1 /\ r2) /\
  (bucket = "refund/cancellation" <-> ~ r1 /\ ~ r2 /\ r3) /\
  (bucket = "suggestion" <-> ~ r1 /\ ~ r2 /\ ~ r3 /\ r4) /\
  (bucket = "praise" <-> ~ r1 /\ ~ r2 /\ ~ r3 /\ ~ r4 /\ r5) /\
  (bucket = "question" <-> ~ r1 /\ ~ r2 /\ ~ r3 /\ ~ r4 /\ ~ r5 /\ r6) /\
  (bucket = "other" <-> ~ r1 /\ ~ r2 /\ ~ r3 /\ ~ r4 /\ ~ r5 /\ ~ r6).
Proof.
  cbv zeta. unfold has, getFeedbackBucket.
  change (slice0 3 (filter (fun i => ge (score i) (Some threshold)) intents))
    with (active intents).
  change (map (fun t => label t) (active intents))
    with (map label (active intents)).
  rewrite <- !includes_In, <- !strict_eq_true.
  destruct (includes (map label (active intents)) "complaint");
    destruct (strict_eq sentiment "negative");
    destruct (includes (map label (active intents)) "bug_report");
    destruct (includes (map label (active intents)) "refund");
    destruct (includes (map label (active intents)) "cancel_order");
    destruct (includes (map label (active intents)) "feature_request");
    destruct (includes (map label (active intents)) "praise");
    destruct (strict_eq sentiment "positive");
    destruct (includes (map label (active intents)) "question");
    simpl; repeat split; intros; try discriminate; try tauto;
    intuition discriminate.
Qed.

(** X13: when no entry reaches the threshold (in particular for the empty
    list) the sentiment alone decides: "complaint" for negative, "praise" for
    positive, "other" for anything else. *)
Theorem bucket_no_active (sentiment : option string) (intents : list Entry) :
  Forall (fun e => ge (score e) (Some threshold) = false) intents ->
  getFeedbackBucket sentiment intents =
  if strict_eq sentiment "negative" then "complaint"
  else if strict_eq sentiment "positive" then "praise"
  else "other".
Proof.
  intros H. unfold getFeedbackBucket.
  change (slice0 3 (filter (fun i => ge (score i) (Some threshold)) intents))
    with (active intents).
  rewrite (none_active intents H). simpl.
  destruct (strict_eq sentiment "negative"); [reflexivity|].
  now destruct (strict_eq sentiment "positive").
Qed.

Lemma bucket_no_active_witness :
  getFeedbackBucket (Some "positive")
    [intent "complaint" 0.3; unscored "bug_report"] = "praise".
Proof.
  apply (bucket_no_active (Some "positive")
           [intent "complaint" 0.3; unscored "bug_report"]).
  repeat constructor.
Defined.

(** X14: the sentiment label matters only through being "negative" or
    "positive": any two labels that are neither, an absent one included,
    give the same bucket. *)
Theorem bucket_other_sentiments (s s' : option string) (intents : list Entry) :
  s <> Some "negative" -> s <> Some "positive" ->
  s' <> Some "negative" -> s' <> Some "positive" ->
  getFeedbackBucket s intents = getFeedbackBucket s' intents.
Proof.
  intros H1 H2 H3 H4. unfold getFeedbackBucket.
  assert (E : forall v kw, v <> Some kw -> strict_eq v kw = false).
  { intros v kw Hv. destruct (strict_eq v kw) eqn:E; [|reflexivity].
    apply strict_eq_true in E. contradiction. }
  now rewrite (E s "negative"), (E s "positive"), (E s' "negative"),
    (E s' "positive").
Qed.

Lemma bucket_other_sentiments_witness :
  getFeedbackBucket (Some "neutral") [intent "question" 0.5] =
  getFeedbackBucket None [intent "question" 0.5].
Proof. apply bucket_other_sentiments; discriminate. Defined.

(** X15: the bucket depends only on which labels occur among the active
    entries, not on their order, their number of occurrences or their
    scores. *)
Theorem bucket_label_set (sentiment : option string) (l l' : list Entry) :
  (forall kw, has kw l <-> has kw l') ->
  getFeedbackBucket sentiment l = getFeedbackBucket sentiment l'.
Proof.
  intros H. apply bucket_by_includes. intros kw.
  specialize (H kw). unfold has in H. rewrite <- !includes_In in H.
  destruct (includes (map label (active l)) kw),
           (includes (map label (active l')) kw); try reflexivity.
  - symmetry. now apply H.
  - now apply H.
Qed.

Lemma bucket_label_set_witness :
  getFeedbackBucket (Some "neutral")
    [intent "praise" 0.9; intent "question" 0.5] =
  getFeedbackBucket (Some "neutral")
    [intent "question" 0.7; intent "praise" 0.6; intent "question" 0.4].
Proof.
  apply bucket_label_set. intros kw. unfold has. simpl. tauto.
Defined.

(** X16: on a list in descending order of score, as [getIntent] returns it,
    the bucket is decided by the first three entries: cutting the list after
    three or more entries does not change the bucket. *)
Theorem bucket_ranked_top3 (sentiment : option string) (intents : list Entry)
  (n : nat) :
  StronglySorted desc intents ->
  3 <= n ->
  getFeedbackBucket sentiment (slice0 n intents) =
  getFeedbackBucket sentiment intents.
Proof.
  intros Hs Hn. apply getFeedbackBucket_active. now apply active_of_ranked.
Qed.

Lemma bucket_ranked_top3_witness :
  getFeedbackBucket (Some "neutral")
    (slice0 3 [intent "greeting" 0.9; intent "order_status" 0.8;
               intent "account_login" 0.7; intent "complaint" 0.6]) =
  getFeedbackBucket (Some "neutral")
    [intent "greeting" 0.9; intent "order_status" 0.8;
     intent "account_login" 0.7; intent "complaint" 0.6].
Proof.
  apply bucket_ranked_top3; [|lia].
  repeat constructor; unfold desc; simpl; discriminate.
Defined.

(** X17: no rule is dead: every one of the seven buckets is the result for
    neutral sentiment and a single confident entry whose label is one of the
    candidate labels sent to the intent model. *)
Theorem bucket_reachable :
  Forall (fun b => exists kw, In kw INTENT_LABELS /\
                     getFeedbackBucket (Some "neutral") [intent kw 1] = b)
    buckets.
Proof.
  unfold buckets. repeat constructor.
  - exists "complaint". split; [simpl; tauto | reflexivity].
  - exists "bug_report". split; [simpl; tauto | reflexivity].
  - exists "cancel_order". split; [simpl; tauto | reflexivity].
  - exists "feature_request". split; [simpl; tauto | reflexivity].
  - exists "praise". split; [simpl; tauto | reflexivity].
  - exists "question". split; [simpl; tauto | reflexivity].
  - exists "greeting". split; [simpl; tauto | reflexivity].
Qed.

(** ** More on the pipeline *)

Lemma getSentiment_log (key : string) (remote : Service) (text : string)
  (log : list Request) :
  snd (getSentiment key remote text log) = log ++ [sentiment_request key text].
Proof.
  unfold getSentiment, bind, lift.
  pose proof (callModel_log key remote log SENTIMENT_MODEL
                (sentiment_payload text)) as H.
  change {| inputs := text; parameters := None |} with (sentiment_payload text).
  destruct (callModel key remote SENTIMENT_MODEL (sentiment_payload text) log)
    as [[e|data] log']; exact H.
Qed.

Lemma getIntent_log (key : string) (remote : Service) (text : string)
  (log : list Request) :
  snd (getIntent key remote text log) = log ++ [intent_request key text].
Proof.
  unfold getIntent, bind, lift.
  pose proof (callModel_log key remote log INTENT_MODEL
                (intent_payload text)) as H.
  change (mkPayload text _) with (intent_payload text).
  destruct (callModel key remote INTENT_MODEL (intent_payload text) log)
    as [[e|data] log']; exact H.
Qed.

Lemma getSentiment_returns (key : string) (remote : Service) (text : string)
  (log : list Request) (s : Entry) :
  fst (getSentiment key remote text log) = Ok s <->
  exists data, answers remote log (sentiment_request key text) data /\
               getSentiment_of data = Ok s.
Proof.
  unfold getSentiment, bind, lift.
  change {| inputs := text; parameters := None |} with (sentiment_payload text).
  destruct (callModel key remote SENTIMENT_MODEL (sentiment_payload text) log)
    as [[e|data] log'] eqn:E; simpl.
  - split; [discriminate|]. intros (data & Hans & _).
    rewrite (callModel_answers _ _ _ _ _ _ Hans) in E. discriminate E.
  - assert (Hans : answers remote log (sentiment_request key text) data).
    { assert (H : fst (callModel key remote SENTIMENT_MODEL
                         (sentiment_payload text) log) = Ok data)
        by now rewrite E.
      exact (callModel_ok_inv _ _ _ _ _ _ H). }
    split.
    + intros H. exists data. now split.
    + intros (data' & Hans' & H).
      rewrite (callModel_answers _ _ _ _ _ _ Hans') in E.
      unfold Ok in E. congruence.
Qed.

Lemma getIntent_returns (key : string) (remote : Service) (text : string)
  (log : list Request) (intents : list Entry) :
  fst (getIntent key remote text log) = Ok intents <->
  exists data, answers remote log (intent_request key text) data /\
               getIntent_of data = Ok intents.
Proof.
  unfold getIntent, bind, lift.
  change (mkPayload text _) with (intent_payload text).
  destruct (callModel key remote INTENT_MODEL (intent_payload text) log)
    as [[e|data] log'] eqn:E; simpl.
  - split; [discriminate|]. intros (data & Hans & _).
    rewrite (callModel_answers _ _ _ _ _ _ Hans) in E. discriminate E.
  - assert (Hans : answers remote log (intent_request key text) data).
    { assert (H : fst (callModel key remote INTENT_MODEL
                         (intent_payload text) log) = Ok data)
        by now rewrite E.
      exact (callModel_ok_inv _ _ _ _ _ _ H). }
    split.
    + intros H. exists data. now split.
    + intros (data' & Hans' & H).
      rewrite (callModel_answers _ _ _ _ _ _ Hans') in E.
      unfold Ok in E. congruence.
Qed.

Lemma analyze_inv (key : string) (remote : Service) (text : string)
  (log : list Request) (r : AnalysisResult) :
  fst (analyze key remote text log) = Ok r <->
  exists s intents,
    fst (getSentiment key remote text log) = Ok s /\
    fst (getIntent key remote text (log ++ [sentiment_request key text])) =
      Ok intents /\
    r = {| input := text; sentiment := s;
           intents_ranked := slice0 5 intents;
           feedback_bucket := getFeedbackBucket (label s) intents |}.
Proof.
  pose proof (getSentiment_log key remote text log) as Hlog.
  unfold analyze, bind, ret.
  destruct (getSentiment key remote text log) as [[e|s] log1]; simpl in *.
  - split; [discriminate|]. intros (s & intents & H & _). discriminate H.
  - subst log1.
    destruct (getIntent key remote text (log ++ [sentiment_request key text]))
      as [[e|intents] log2]; simpl.
    + split; [discriminate|]. intros (s' & intents & _ & H & _). discriminate H.
    + unfold Ok. split.
      * intros H. exists s, intents. injection H as <-. now repeat split.
      * intros (s' & intents' & H1 & H2 & ->).
        injection H1 as <-. injection H2 as <-. reflexivity.
Qed.

Lemma analyze_log (key : string) (remote : Service) (text : string)
  (log : list Request) :
  snd (analyze key remote text log) =
  log ++ sentiment_request key text ::
         match fst (getSentiment key remote text log) with
         | inr _ => [intent_request key text]
         | inl _ => []
         end.
Proof.
  pose proof (getSentiment_log key remote text log) as Hlog.
  unfold analyze, bind, ret.
  destruct (getSentiment key remote text log) as [[e|s] log1]; simpl in *.
  - exact Hlog.
  - subst log1.
    pose proof (getIntent_log key remote text
                  (log ++ [sentiment_request key text])) as Hlog.
    destruct (getIntent key remote text (log ++ [sentiment_request key text]))
      as [[e|intents] log2]; simpl in *; subst log2;
      now rewrite <- app_assoc.
Qed.

(** X18: [analyze] issues the sentiment request first and, exactly when
    [getSentiment] has returned, the intent request after it; it issues
    nothing else, whether it ends with a result or an exception. *)
Theorem analyze_requests (key : string) (remote : Service) (text : string)
  (log : list Request) :
  snd (analyze key remote text log) =
  log ++ sentiment_request key text ::
         match fst (getSentiment key remote text log) with
         | inr _ => [intent_request key text]
         | inl _ => []
         end.
Proof. apply analyze_log. Qed.

(** X19: [analyze] returns a result exactly when the sentiment request and
    then the intent request are both answered with a 2xx status and a body
    that decodes, and both bodies are processed without a [TypeError]; the
    result is then built from the two processed bodies. *)
Theorem analyze_returns_iff (key : string) (remote : Service) (text : string)
  (log : list Request) (r : AnalysisResult) :
  fst (analyze key remote text log) = Ok r <->
  exists sdata idata s intents,
    answers remote log (sentiment_request key text) sdata /\
    getSentiment_of sdata = Ok s /\
    answers remote (log ++ [sentiment_request key text])
      (intent_request key text) idata /\
    getIntent_of idata = Ok intents /\
    r = {| input := text; sentiment := s;
           intents_ranked := slice0 5 intents;
           feedback_bucket := getFeedbackBucket (label s) intents |}.
Proof.
  rewrite analyze_inv. split.
  - intros (s & intents & Hs & Hi & ->).
    apply getSentiment_returns in Hs. destruct Hs as (sdata & Hs1 & Hs2).
    apply getIntent_returns in Hi. destruct Hi as (idata & Hi1 & Hi2).
    exists sdata, idata, s, intents. auto.
  - intros (sdata & idata & s & intents & Hs1 & Hs2 & Hi1 & Hi2 & ->).
    exists s, intents. repeat split.
    + apply getSentiment_returns. eauto.
    + apply getIntent_returns. eauto.
Qed.

(** X20: every result of [analyze] carries the text it was called with, at
    most five ranked intents and one of the seven bucket names, and its
    bucket is "complaint" whenever its sentiment label is "negative". *)
Theorem analyze_result_invariants (key : string) (remote : Service)
  (text : string) (log : list Request) (r : AnalysisResult) :
  fst (analyze key remote text log) = Ok r ->
  input r = text /\
  List.length (intents_ranked r) <= 5 /\
  In (feedback_bucket r) buckets /\
  (label (sentiment r) = Some "negative" -> feedback_bucket r = "complaint").
Proof.
  intros H. apply analyze_inv in H. destruct H as (s & intents & _ & _ & ->).
  cbn [input intents_ranked feedback_bucket sentiment]. repeat split.
  - apply firstn_le_length.
  - apply bucket_in_buckets.
  - intros Hneg. apply rule1_complaint. now right.
Qed.

Lemma analyze_result_invariants_witness :
  input (mkResult "this is broken" (intent "negative" 0.8)
           [intent "refund" 0.9; intent "bug_report" 0.6;
            intent "complaint" 0.2; intent "question" 0.1;
            intent "praise" 0.05] "complaint") = "this is broken" /\
  List.length (intents_ranked
     (mkResult "this is broken" (intent "negative" 0.8)
        [intent "refund" 0.9; intent "bug_report" 0.6;
         intent "complaint" 0.2; intent "question" 0.1;
         intent "praise" 0.05] "complaint")) <= 5 /\
  In (feedback_bucket
        (mkResult "this is broken" (intent "negative" 0.8)
           [intent "refund" 0.9; intent "bug_report" 0.6;
            intent "complaint" 0.2; intent "question" 0.1;
            intent "praise" 0.05] "complaint")) buckets /\
  (label (sentiment
            (mkResult "this is broken" (intent "negative" 0.8)
               [intent "refund" 0.9; intent "bug_report" 0.6;
                intent "complaint" 0.2; intent "question" 0.1;
                intent "praise" 0.05] "complaint")) = Some "negative" ->
   feedback_bucket
     (mkResult "this is broken" (intent "negative" 0.8)
        [intent "refund" 0.9; intent "bug_report" 0.6;
         intent "complaint" 0.2; intent "question" 0.1;
         intent "praise" 0.05] "complaint") = "complaint").
Proof.
  apply (analyze_result_invariants "key"
           (mock (http_ok (VArray [scored "negative" 0.8]))
                 (http_ok refund_response))
           "this is broken" []).
  reflexivity.
Defined.

(** X21: when every label of the intent response has a score, the bucket of
    the result can be recomputed from the result alone: it is the bucket of
    its sentiment label and its (at most five) ranked intents. *)
Theorem analyze_bucket_from_ranked (key : string) (remote : Service)
  (text : string) (log : list Request) (o : JObject) (r : AnalysisResult) :
  answers remote (log ++ [sentiment_request key text])
    (intent_request key text) (VObject o) ->
  List.length (labels_of o) <= List.length (scores_of o) ->
  fst (analyze key remote text log) = Ok r ->
  feedback_bucket r =
  getFeedbackBucket (label (sentiment r)) (intents_ranked r).
Proof.
  intros Hans Hlen H. apply analyze_inv in H.
  destruct H as (s & intents & _ & Hi & ->).
  cbn [input intents_ranked feedback_bucket sentiment].
  rewrite (getIntent_answers _ _ _ _ _ Hans) in Hi. simpl fst in Hi.
  rewrite getIntent_of_object, (pair_up_paired _ _ Hlen) in Hi.
  unfold Ok in Hi. injection Hi as <-.
  symmetry. apply getFeedbackBucket_active, active_of_ranked; [|lia].
  apply sort_sorted, paired_scored.
Qed.

Lemma analyze_bucket_from_ranked_witness :
  feedback_bucket
    (mkResult "this is broken" (intent "neutral" 0.8)
       [intent "refund" 0.9; intent "bug_report" 0.6;
        intent "complaint" 0.2; intent "question" 0.1;
        intent "praise" 0.05] "bug_report") =
  getFeedbackBucket
    (label (sentiment
       (mkResult "this is broken" (intent "neutral" 0.8)
          [intent "refund" 0.9; intent "bug_report" 0.6;
           intent "complaint" 0.2; intent "question" 0.1;
           intent "praise" 0.05] "bug_report")))
    (intents_ranked
       (mkResult "this is broken" (intent "neutral" 0.8)
          [intent "refund" 0.9; intent "bug_report" 0.6;
           intent "complaint" 0.2; intent "question" 0.1;
           intent "praise" 0.05] "bug_report")).
Proof.
  apply (analyze_bucket_from_ranked "key"
           (mock (http_ok (VArray [scored "neutral" 0.8]))
                 (http_ok refund_response))
           "this is broken" []
           (mkObject None None
              (Some ["refund"; "bug_report"; "complaint"; "question";
                     "praise"; "greeting"])
              (Some [0.9; 0.6; 0.2; 0.1; 0.05; 0.01]%Q))).
  - eexists. repeat split.
  - simpl. lia.
  - reflexivity.
Defined.

(** ** The input loop *)

Lemma analyze_ok_log (key : string) (remote : Service) (text : string)
  (log log' : list Request) (r : AnalysisResult) :
  analyze key remote text log = (Ok r, log') ->
  input r = text /\
  log' = log ++ [sentiment_request key text; intent_request key text].
Proof.
  intros H.
  assert (H1 : fst (analyze key remote text log) = Ok r) by now rewrite H.
  assert (H2 : snd (analyze key remote text log) = log') by now rewrite H.
  rewrite analyze_log in H2. apply analyze_inv in H1.
  destruct H1 as (s & intents & Hs & _ & ->). rewrite Hs in H2.
  split; [reflexivity | now symmetry].
Qed.

Lemma session_transcript (key : string) (remote : Service)
  (trim : string -> string) (answers : list string) (log log' : list Request)
  (events : list Event) (failure : option Exn) :
  transcript key remote trim answers log = (events, failure, log') ->
  session key remote trim answers log = (results_of events, failure, log').
Proof.
  revert log events. induction answers as [|a answers IH]; intros log events H.
  - simpl in *. injection H as <- <- <-. reflexivity.
  - simpl in *. destruct (blank trim a).
    + destruct (transcript key remote trim answers log) as [[ev f] l] eqn:E.
      injection H as <- <- <-. exact (IH _ _ E).
    + destruct (analyze key remote (trim a) log) as [[e|r] log1].
      * injection H as <- <- <-. reflexivity.
      * destruct (transcript key remote trim answers log1) as [[ev f] l] eqn:E.
        injection H as <- <- <-. now rewrite (IH _ _ E).
Qed.

(** X22: an answer of [rl.question] that trims to the empty string starts no
    analysis.  Compared with the loop on the same answers without it, the
    loop ends the same way and issues the same requests, and what it writes
    is the same except for the one prompt written again after the blank
    answer (nothing differs when the loop failed before reaching it). *)
Theorem transcript_blank_answer (key : string) (remote : Service)
  (trim : string -> string) (before after : list string) (b : string)
  (log log' : list Request) (events' : list Event) (failure : option Exn) :
  blank trim b = true ->
  transcript key remote trim (before ++ after) log = (events', failure, log') ->
  exists events,
    transcript key remote trim (before ++ b :: after) log =
      (events, failure, log') /\
    results_of events = results_of events' /\
    (events = events' \/
     exists ev1 ev2, events' = ev1 ++ ev2 /\ events = ev1 ++ Prompted :: ev2).
Proof.
  intros Hb. revert log events'.
  induction before as [|a before IH]; intros log events' H.
  - simpl in *. rewrite Hb, H. exists (Prompted :: events').
    split; [reflexivity|]. split; [reflexivity|].
    right. exists [], events'. now split.
  - simpl in *. destruct (blank trim a).
    + destruct (transcript key remote trim (before ++ after) log)
        as [[ev f] l] eqn:E.
      injection H as <- <- <-.
      destruct (IH _ _ E) as (ev0 & -> & Hres & Hev).
      exists (Prompted :: ev0). split; [reflexivity|]. split; [exact Hres|].
      destruct Hev as [-> | (ev1 & ev2 & -> & ->)]; [now left|].
      right. exists (Prompted :: ev1), ev2. now split.
    + destruct (analyze key remote (trim a) log) as [[e|r] log1].
      * exists events'. split; [exact H|]. split; [reflexivity | now left].
      * destruct (transcript key remote trim (before ++ after) log1)
          as [[ev f] l] eqn:E.
        injection H as <- <- <-.
        destruct (IH _ _ E) as (ev0 & -> & Hres & Hev).
        exists (Prompted :: Printed r :: ev0). split; [reflexivity|].
        split; [simpl; now rewrite Hres|].
        destruct Hev as [-> | (ev1 & ev2 & -> & ->)]; [now left|].
        right. exists (Prompted :: Printed r :: ev1), ev2. now split.
Qed.

Lemma transcript_blank_answer_witness :
  exists events,
    transcript "key"
      (mock (http_ok (VArray [scored "negative" 0.8])) (http_ok refund_response))
      ascii_trim ([" refund please "] ++ "   " :: ["thanks"]) [] =
      (events, None,
       [sentiment_request "key" "refund please";
        intent_request "key" "refund please";
        sentiment_request "key" "thanks"; intent_request "key" "thanks"]) /\
    results_of events =
      results_of
        [ Prompted;
          Printed (mkResult "refund please" (intent "negative" 0.8)
                     [intent "refund" 0.9; intent "bug_report" 0.6;
                      intent "complaint" 0.2; intent "question" 0.1;
                      intent "praise" 0.05] "complaint");
          Prompted;
          Printed (mkResult "thanks" (intent "negative" 0.8)
                     [intent "refund" 0.9; intent "bug_report" 0.6;
                      intent "complaint" 0.2; intent "question" 0.1;
                      intent "praise" 0.05] "complaint");
          Prompted ] /\
    (events =
       [ Prompted;
         Printed (mkResult "refund please" (intent "negative" 0.8)
                    [intent "refund" 0.9; intent "bug_report" 0.6;
                     intent "complaint" 0.2; intent "question" 0.1;
                     intent "praise" 0.05] "complaint");
         Prompted;
         Printed (mkResult "thanks" (intent "negative" 0.8)
                    [intent "refund" 0.9; intent "bug_report" 0.6;
                     intent "complaint" 0.2; intent "question" 0.1;
                     intent "praise" 0.05] "complaint");
         Prompted ] \/
     exists ev1 ev2,
       [ Prompted;
         Printed (mkResult "refund please" (intent "negative" 0.8)
                    [intent "refund" 0.9; intent "bug_report" 0.6;
                     intent "complaint" 0.2; intent "question" 0.1;
                     intent "praise" 0.05] "complaint");
         Prompted;
         Printed (mkResult "thanks" (intent "negative" 0.8)
                    [intent "refund" 0.9; intent "bug_report" 0.6;
                     intent "complaint" 0.2; intent "question" 0.1;
                     intent "praise" 0.05] "complaint");
         Prompted ] = ev1 ++ ev2 /\
       events = ev1 ++ Prompted :: ev2).
Proof.
  apply (transcript_blank_answer "key" _ ascii_trim [" refund please "]
           ["thanks"] "   " []); reflexivity.
Defined.

(** X23: an exception of [analyze] ends the loop: the lines after the one
    that failed are never analysed, no request is issued for them and
    nothing more is printed. *)
Theorem session_stops_at_error (key : string) (remote : Service)
  (trim : string -> string) (lines later : list string) (log log' : list Request)
  (printed : list AnalysisResult) (e : Exn) :
  session key remote trim lines log = (printed, Some e, log') ->
  session key remote trim (lines ++ later) log = (printed, Some e, log').
Proof.
  revert log printed. induction lines as [|line lines IH]; intros log printed H.
  - discriminate H.
  - simpl in *. destruct (blank trim line).
    + now apply IH.
    + destruct (analyze key remote (trim line) log) as [[e'|r] log1];
        [exact H|].
      destruct (session key remote trim lines log1) as [[printed1 failure1] log2]
        eqn:E.
      injection H as <- -> <-.
      now rewrite (IH log1 printed1 E).
Qed.

Lemma session_stops_at_error_witness :
  session "key"
    (mock (http_error 503 "busy") (http_ok refund_response))
    ascii_trim (["  "; " first "] ++ ["second"; "third"]) [] =
  ([], Some (Error (http_message (mkResponse 503 "busy" None))),
   [sentiment_request "key" "first"]).
Proof.
  apply (session_stops_at_error "key" _ ascii_trim ["  "; " first "]).
  reflexivity.
Defined.

(** X24: when the loop has used up the answers of [rl.question] without an
    exception, it has written one prompt for each answer and one more, on
    which it waits; it has printed one result for every answer that does not
    trim to the empty string, in the order of the answers and for the trimmed
    text; and it has issued for each of those the sentiment request and then
    the intent request, and no other request. *)
Theorem transcript_all_answered (key : string) (remote : Service)
  (trim : string -> string) (answers : list string) (log log' : list Request)
  (events : list Event) :
  transcript key remote trim answers log = (events, None, log') ->
  prompts_of events = S (List.length answers) /\
  (exists written, events = written ++ [Prompted]) /\
  map input (results_of events) =
    map trim (filter (fun a => negb (blank trim a)) answers) /\
  log' = log ++ flat_map
                  (fun t => [sentiment_request key t; intent_request key t])
                  (map trim (filter (fun a => negb (blank trim a)) answers)).
Proof.
  revert log events. induction answers as [|a answers IH]; intros log events H.
  - simpl in *. injection H as <- <-. repeat split.
    + now exists [].
    + now rewrite app_nil_r.
  - simpl in H. simpl filter. destruct (blank trim a); simpl negb; cbv iota.
    + destruct (transcript key remote trim answers log) as [[ev f] l] eqn:E.
      injection H as <- -> <-.
      destruct (IH _ _ E) as (Hp & (w & ->) & Hr & Hl).
      repeat split.
      * unfold prompts_of in *. simpl. now rewrite Hp.
      * now exists (Prompted :: w).
      * exact Hr.
      * exact Hl.
    + destruct (analyze key remote (trim a) log) as [[e|r] log1] eqn:Ea;
        [discriminate H|].
      destruct (transcript key remote trim answers log1) as [[ev f] l] eqn:E.
      injection H as <- -> <-.
      destruct (IH _ _ E) as (Hp & (w & ->) & Hr & Hl).
      destruct (analyze_ok_log _ _ _ _ _ _ Ea) as [Hin ->].
      repeat split.
      * unfold prompts_of in *. simpl. now rewrite Hp.
      * now exists (Prompted :: Printed r :: w).
      * simpl. now rewrite Hin, Hr.
      * rewrite Hl. simpl. now rewrite <- app_assoc.
Qed.

Lemma transcript_all_answered_witness :
  prompts_of
    [ Prompted; Prompted;
      Printed (mkResult "refund please" (intent "negative" 0.8)
                 [intent "refund" 0.9; intent "bug_report" 0.6;
                  intent "complaint" 0.2; intent "question" 0.1;
                  intent "praise" 0.05] "complaint");
      Prompted ] = 3 /\
  (exists written,
     [ Prompted; Prompted;
       Printed (mkResult "refund please" (intent "negative" 0.8)
                  [intent "refund" 0.9; intent "bug_report" 0.6;
                   intent "complaint" 0.2; intent "question" 0.1;
                   intent "praise" 0.05] "complaint");
       Prompted ] = written ++ [Prompted]) /\
  map input
    (results_of
       [ Prompted; Prompted;
         Printed (mkResult "refund please" (intent "negative" 0.8)
                    [intent "refund" 0.9; intent "bug_report" 0.6;
                     intent "complaint" 0.2; intent "question" 0.1;
                     intent "praise" 0.05] "complaint");
         Prompted ]) =
    map ascii_trim
      (filter (fun a => negb (blank ascii_trim a)) ["   "; " refund please "]) /\
  [sentiment_request "key" "refund please";
   intent_request "key" "refund please"] =
    [] ++ flat_map
            (fun t => [sentiment_request "key" t; intent_request "key" t])
            (map ascii_trim
               (filter (fun a => negb (blank ascii_trim a))
                  ["   "; " refund please "])).
Proof.
  apply (transcript_all_answered "key"
           (mock (http_ok (VArray [scored "negative" 0.8]))
                 (http_ok refund_response))
           ascii_trim ["   "; " refund please "] []).
  reflexivity.
Defined.
